(** * The configuration service of the Firebase + Next.js template

    A shallow embedding of [apps/web/src/config/firebase-config.ts] and
    [apps/web/src/config/types.ts]: the singleton [ConfigService], its
    layered loading of settings from [process.env] and [firebase.json],
    its validation, and its read accessors.

    The class is modelled method by method.  Ambient inputs a method reads
    ([process.env], the module constant [isNode], the state of
    [firebase.json]) are gathered in a record [Ambient]; what it writes
    (console lines, the static field [ConfigService.instance]) is threaded
    through a small state-and-exception monad. *)

From Stdlib Require Import ZArith String Ascii List Bool Lia DecimalString DecimalNat.
From stdpp Require Import base option gmap strings.

Set Warnings "-register-all".
Local Open Scope string_scope.

(** ** The fragment of the JavaScript runtime the service relies on *)

Module Js.

(** Values thrown by the code or by the runtime under it. *)
Inductive exn :=
| ConfigurationError (message : string) (details resolution : option string)
| TypeError
| SyntaxError
| SystemError.

(** How an expression or a call completes. *)
Inductive completion (A : Type) :=
| Normal (a : A)
| Abrupt (e : exn).
Arguments Normal {A} a.
Arguments Abrupt {A} e.

Definition cbind {A B} (c : completion A) (k : A -> completion B) : completion B :=
  match c with
  | Normal a => k a
  | Abrupt e => Abrupt e
  end.

(** What [JSON.parse] can return.  [JInt z] is a number whose value is the
    integer [z], printed by the runtime in plain decimal digits (the safe
    integers); [JOtherNumber repr] is any other number, which is never zero,
    kept by the text the runtime prints for it.  The service only tests
    numbers for truthiness and interpolates them into strings.  [JObject]
    holds the own properties of a parsed object. *)
Inductive json :=
| JNull
| JBool (b : bool)
| JInt (z : Z)
| JOtherNumber (repr : string)
| JString (s : string)
| JArray (items : list json)
| JObject (members : gmap string json).

(** A value read from parsed JSON; [None] is [undefined]. *)
Definition value := option json.

(** ToBoolean. *)
Definition truthy (v : value) : bool :=
  match v with
  | None => false
  | Some JNull => false
  | Some (JBool b) => b
  | Some (JInt z) => negb (z =? 0)%Z
  | Some (JOtherNumber _) => true
  | Some (JString s) => negb (String.eqb s "")
  | Some (JArray _) => true
  | Some (JObject _) => true
  end.

(** The value of [v] where [if (v)] takes its branch. *)
Definition when_truthy (v : value) : option json :=
  if truthy v then v else None.

(** [v.k] for [v] neither [null] nor [undefined], and [k] one of the keys
    the service reads ([emulators], [auth], [firestore], [functions],
    [storage], [hosting], [port]): none of them is inherited from a
    prototype, so only an own property of an object answers. *)
Definition get (v : json) (k : string) : value :=
  match v with
  | JObject members => members !! k
  | _ => None
  end.

(** [v?.k] *)
Definition opt_get (v : value) (k : string) : value :=
  match v with
  | None => None
  | Some JNull => None
  | Some o => get o k
  end.

(** [v.k], which throws on [null] and [undefined]. *)
Definition get_strict (v : value) (k : string) : completion value :=
  match v with
  | None => Abrupt TypeError
  | Some JNull => Abrupt TypeError
  | Some o => Normal (get o k)
  end.

Definition number_to_string (z : Z) : string :=
  NilZero.string_of_int (Z.to_int z).

(** [Array.prototype.join] with the separator [","], over the rendering
    [render] of one element. *)
Definition join_with {A} (render : A -> completion string)
  : list A -> completion string :=
  fix join (l : list A) : completion string :=
    match l with
    | [] => Normal ""
    | x :: rest =>
        cbind (render x) (fun s =>
          match rest with
          | [] => Normal s
          | _ => cbind (join rest) (fun r => Normal (s +:+ "," +:+ r))
          end)
    end.

(** ToString, as a template literal applies it.  An array is joined with
    commas, [null] elements printing as the empty string.  A plain object
    prints through [Object.prototype.toString], unless an own property
    named [toString] shadows it: that property is data, not a function, the
    inherited [valueOf] returns the object itself, and the conversion
    throws a [TypeError]. *)
Fixpoint to_string (v : json) : completion string :=
  match v with
  | JNull => Normal "null"
  | JBool true => Normal "true"
  | JBool false => Normal "false"
  | JInt z => Normal (number_to_string z)
  | JOtherNumber repr => Normal repr
  | JString s => Normal s
  | JArray items =>
      join_with (fun x => match x with JNull => Normal "" | _ => to_string x end) items
  | JObject members =>
      match members !! "toString" with
      | Some _ => Abrupt TypeError
      | None => Normal "[object Object]"
      end
  end.

(** ToBoolean and [||] on the values of [process.env], which are strings or
    [undefined]. *)
Definition truthy_str (v : option string) : bool :=
  match v with
  | Some s => negb (String.eqb s "")
  | None => false
  end.

Definition or_str (a b : option string) : option string :=
  if truthy_str a then a else b.

End Js.
Import Js.

(** ** [types.ts] *)

Inductive Environment := development | staging | production.

Definition Environment_eqb (a b : Environment) : bool :=
  match a, b with
  | development, development => true
  | staging, staging => true
  | production, production => true
  | _, _ => false
  end.

Definition Environment_name (e : Environment) : string :=
  match e with
  | development => "development"
  | staging => "staging"
  | production => "production"
  end.

(** The interface declares [port: number]; at run time the field holds
    whatever value the loader stored, so it is a [json] value here. *)
Record EmulatorEndpoint := {
  host : string;
  port : json;
}.

Record AuthEndpoint := {
  auth_endpoint :> EmulatorEndpoint;
  url : string;
}.

Record FunctionsEndpoint := {
  functions_endpoint :> EmulatorEndpoint;
  baseUrl : string;
}.

Record EmulatorConfig := {
  auth : AuthEndpoint;
  firestore : EmulatorEndpoint;
  functions : FunctionsEndpoint;
  storage : EmulatorEndpoint;
  hosting : EmulatorEndpoint;
}.

Record FirebaseConfig := {
  projectId : string;
  apiKey : option string;
  authDomain : option string;
  storageBucket : option string;
  messagingSenderId : option string;
  appId : option string;
  emulators : option EmulatorConfig;
}.

(** [api_baseUrl] is the field [api.baseUrl]. *)
Record AppConfig := {
  environment : Environment;
  firebase : FirebaseConfig;
  api_baseUrl : string;
}.

Record ValidationResult := {
  valid : bool;
  errors : option (list string);
}.

(** The class [ConfigurationError] of [types.ts] is the constructor
    [Js.ConfigurationError]: a message, and the optional public fields
    [details] and [resolution]. *)

Record ConfigService := {
  config : AppConfig;
}.

(** ** What the service reads and what it writes *)

(** [firebase.json] in the working directory, as the loader meets it:
    [fs.existsSync] answers [false]; or the file is there and reading it
    throws; or [JSON.parse] throws on its text; or parsing returns a value. *)
Inductive FirebaseJson :=
| FileAbsent
| FileUnreadable
| FileMalformed
| FileParsed (content : json).

Record Ambient := {
  process_env : gmap string string;
  isNode : bool;
  firebase_json : FirebaseJson;
}.

Inductive console_entry :=
| console_log (text : string)
| console_warn (text : string)
| console_error (text : string) (thrown : exn).

(** The mutable state of the process: the static field
    [ConfigService.instance] and the lines written to the console. *)
Record Process := {
  instance : option ConfigService;
  console : list console_entry;
}.

Definition M (A : Type) : Type := Process -> completion A * Process.

Definition ret {A} (a : A) : M A := fun s => (Normal a, s).

Definition bind {A B} (m : M A) (k : A -> M B) : M B :=
  fun s =>
    match m s with
    | (Normal a, s') => k a s'
    | (Abrupt e, s') => (Abrupt e, s')
    end.

Definition throw {A} (e : exn) : M A := fun s => (Abrupt e, s).

Definition lift {A} (c : completion A) : M A := fun s => (c, s).

Definition try_catch {A} (body : M A) (handler : exn -> M A) : M A :=
  fun s =>
    match body s with
    | (Normal a, s') => (Normal a, s')
    | (Abrupt e, s') => handler e s'
    end.

Definition emit (entry : console_entry) : M unit :=
  fun s => (Normal tt, {| instance := instance s; console := (console s ++ [entry])%list |}).

Definition read_instance : M (option ConfigService) :=
  fun s => (Normal (instance s), s).

Definition write_instance (i : option ConfigService) : M unit :=
  fun s => (Normal tt, {| instance := i; console := console s |}).

Notation "x <- m ;; k" := (bind m (fun x => k))
  (at level 100, m at next level, right associativity).
Notation "m ;;; k" := (bind m (fun _ => k))
  (at level 100, right associativity).

(** [process.env.NAME] *)
Definition env_var (amb : Ambient) (name : string) : option string :=
  process_env amb !! name.

(** [v === s] for [v] read from [process.env]. *)
Definition str_is (v : option string) (s : string) : bool :=
  match v with
  | Some x => String.eqb x s
  | None => false
  end.

(** The value of [v] where [if (v)] takes its branch. *)
Definition taken (v : option string) : option string :=
  if truthy_str v then v else None.

(** [v || d] for a string literal [d]. *)
Definition or_literal (v : option string) (d : string) : string :=
  match taken v with
  | Some s => s
  | None => d
  end.

(** [v || d] for a number literal [d]. *)
Definition or_default (v : value) (d : Z) : json :=
  match v with
  | Some p => if truthy v then p else JInt d
  | None => JInt d
  end.

(** ** [firebase-config.ts]: the class [ConfigService] *)

(** [this.config] is [undefined] until the constructor assigns it, and the
    loaders run before that assignment: they take the field as an
    [option AppConfig].  The methods that run after it take [this], a
    [ConfigService] whose field is assigned. *)

(** [getEnvironment()]; the method does not read [this]. *)
Definition getEnvironment (amb : Ambient) : Environment :=
  let env := or_str (env_var amb "NEXT_PUBLIC_APP_ENV") (env_var amb "NODE_ENV") in
  if str_is env "production" then production
  else if str_is env "staging" then staging
  else development.

Definition getFirebaseConfig (this : ConfigService) : FirebaseConfig :=
  firebase (config this).

Definition getEmulatorConfig (this : ConfigService) : option EmulatorConfig :=
  emulators (firebase (config this)).

Definition getApiUrl (this : ConfigService) : string :=
  api_baseUrl (config this).

Definition isEmulatorMode (this : ConfigService) : bool :=
  Environment_eqb (environment (config this)) development
  && match emulators (firebase (config this)) with
     | Some _ => true
     | None => false
     end.

Definition isProduction (this : ConfigService) : bool :=
  Environment_eqb (environment (config this)) production.

Definition validate (this : ConfigService) : ValidationResult :=
  let cfg := config this in
  let errors0 : list string := [] in
  let errors1 :=
    if String.eqb (projectId (firebase cfg)) ""
    then (errors0 ++ ["Firebase projectId is required"])%list else errors0 in
  let errors2 :=
    if Environment_eqb (environment cfg) development then
      match emulators (firebase cfg) with
      | None => (errors1 ++ ["Emulator configuration missing in development mode"])%list
      | Some _ => errors1
      end
    else errors1 in
  let errors3 :=
    if Environment_eqb (environment cfg) production then
      let errors_a :=
        if truthy_str (apiKey (firebase cfg)) then errors2
        else (errors2 ++ ["Firebase apiKey required for production"])%list in
      if truthy_str (authDomain (firebase cfg)) then errors_a
      else (errors_a ++ ["Firebase authDomain required for production"])%list
    else errors2 in
  {| valid := Nat.eqb (length errors3) 0;
     errors := if Nat.ltb 0 (length errors3) then Some errors3 else None |}.

(** [this.config?.firebase?.projectId || 'demo-project'] *)
Definition project_or_placeholder (this_config : option AppConfig) : string :=
  or_literal (option_map (fun c => projectId (firebase c)) this_config) "demo-project".

Definition getDefaultEmulatorConfig (this_config : option AppConfig) : EmulatorConfig :=
  let host := "localhost" in
  let projectId := project_or_placeholder this_config in
  {| auth := {| auth_endpoint := {| host := host; port := JInt 9099 |};
                url := "http://" +:+ host +:+ ":9099" |};
     firestore := {| host := host; port := JInt 8080 |};
     functions := {| functions_endpoint := {| host := host; port := JInt 5001 |};
                     baseUrl := "http://" +:+ host +:+ ":5001/" +:+ projectId +:+ "/us-central1" |};
     storage := {| host := host; port := JInt 9199 |};
     hosting := {| host := host; port := JInt 5000 |} |}.

(** [emulators.<service>?.port || <fallback>] *)
Definition service_port (emulators : json) (service : string) (fallback : Z) : json :=
  or_default (opt_get (get emulators service) "port") fallback.

(** The object literal returned from the [try] block, for the truthy
    value [emulators] of [firebaseJson.emulators]. *)
Definition emulators_from_file (emulators : json) (this_config : option AppConfig)
  : completion EmulatorConfig :=
  let host := "localhost" in
  let projectId := project_or_placeholder this_config in
  cbind (to_string (service_port emulators "auth" 9099)) (fun auth_port =>
  cbind (to_string (service_port emulators "functions" 5001)) (fun functions_port =>
  Normal
    {| auth := {| auth_endpoint := {| host := host; port := service_port emulators "auth" 9099 |};
                  url := "http://" +:+ host +:+ ":" +:+ auth_port |};
       firestore := {| host := host; port := service_port emulators "firestore" 8080 |};
       functions := {| functions_endpoint :=
                         {| host := host; port := service_port emulators "functions" 5001 |};
                       baseUrl := "http://" +:+ host +:+ ":" +:+ functions_port
                                  +:+ "/" +:+ projectId +:+ "/us-central1" |};
       storage := {| host := host; port := service_port emulators "storage" 9199 |};
       hosting := {| host := host; port := service_port emulators "hosting" 5000 |} |})).

(** [JSON.parse(fs.readFileSync(firebasePath, 'utf-8'))], reached when
    [fs.existsSync] answered [true]. *)
Definition read_and_parse (file : FirebaseJson) : completion json :=
  match file with
  | FileAbsent => Abrupt SystemError
  | FileUnreadable => Abrupt SystemError
  | FileMalformed => Abrupt SyntaxError
  | FileParsed content => Normal content
  end.

Definition existsSync (file : FirebaseJson) : bool :=
  match file with
  | FileAbsent => false
  | _ => true
  end.

(** The body of the [try] block of [loadEmulatorConfig]. *)
Definition loadEmulatorConfig_try (amb : Ambient) (this_config : option AppConfig)
  : M EmulatorConfig :=
  if negb (existsSync (firebase_json amb)) then
    emit (console_warn "[ConfigService] ⚠️  firebase.json not found, using defaults") ;;;
    ret (getDefaultEmulatorConfig this_config)
  else
    firebaseJson <- lift (read_and_parse (firebase_json amb)) ;;
    section <- lift (get_strict (Some firebaseJson) "emulators") ;;
    match when_truthy section with
    | Some emulators => lift (emulators_from_file emulators this_config)
    | None =>
        emit (console_warn "[ConfigService] ⚠️  No emulator config in firebase.json") ;;;
        ret (getDefaultEmulatorConfig this_config)
    end.

Definition loadEmulatorConfig (amb : Ambient) (this_config : option AppConfig)
  : M EmulatorConfig :=
  if negb (isNode amb) then
    emit (console_log
            "[ConfigService] Browser environment detected, using default emulator ports") ;;;
    ret (getDefaultEmulatorConfig this_config)
  else
    try_catch (loadEmulatorConfig_try amb this_config)
      (fun error =>
         emit (console_error "[ConfigService] ❌ Error loading firebase.json:" error) ;;;
         ret (getDefaultEmulatorConfig this_config)).

Definition loadFirebaseConfig (amb : Ambient) (this_config : option AppConfig)
  : M FirebaseConfig :=
  let config0 :=
    {| projectId :=
         or_literal (or_str (env_var amb "NEXT_PUBLIC_FIREBASE_PROJECT_ID")
                            (env_var amb "FIREBASE_PROJECT_ID")) "demo-project";
       apiKey := env_var amb "NEXT_PUBLIC_FIREBASE_API_KEY";
       authDomain := env_var amb "NEXT_PUBLIC_FIREBASE_AUTH_DOMAIN";
       storageBucket := env_var amb "NEXT_PUBLIC_FIREBASE_STORAGE_BUCKET";
       messagingSenderId := env_var amb "NEXT_PUBLIC_FIREBASE_MESSAGING_SENDER_ID";
       appId := env_var amb "NEXT_PUBLIC_FIREBASE_APP_ID";
       emulators := None |} in
  if Environment_eqb (getEnvironment amb) development then
    loaded <- loadEmulatorConfig amb this_config ;;
    ret {| projectId := projectId config0;
           apiKey := apiKey config0;
           authDomain := authDomain config0;
           storageBucket := storageBucket config0;
           messagingSenderId := messagingSenderId config0;
           appId := appId config0;
           emulators := Some loaded |}
  else ret config0.

Definition getApiBaseUrl (amb : Ambient) (this : ConfigService) : M string :=
  match taken (env_var amb "NEXT_PUBLIC_API_URL") with
  | Some api_url => ret api_url
  | None =>
      match emulators (firebase (config this)) with
      | Some e => ret (baseUrl (functions e))
      | None =>
          match taken (env_var amb "NEXT_PUBLIC_FIREBASE_FUNCTIONS_URL") with
          | Some functions_url => ret functions_url
          | None =>
              throw (ConfigurationError
                       "API base URL not configured"
                       (Some "No NEXT_PUBLIC_API_URL or Firebase Functions URL found")
                       (Some "Set NEXT_PUBLIC_API_URL in .env.local or ensure Firebase emulators are configured"))
          end
      end
  end.

Definition bool_to_string (b : bool) : string :=
  if b then "true" else "false".

Definition logConfiguration (this : ConfigService) : M unit :=
  let cfg := config this in
  emit (console_log "[ConfigService] Configuration Summary:") ;;;
  emit (console_log ("  Environment: " +:+ Environment_name (environment cfg))) ;;;
  emit (console_log ("  Project ID: " +:+ projectId (firebase cfg))) ;;;
  emit (console_log ("  Emulator Mode: " +:+ bool_to_string (isEmulatorMode this))) ;;;
  emit (console_log ("  API Base URL: " +:+ api_baseUrl cfg)) ;;;
  match emulators (firebase cfg) with
  | Some e =>
      if isEmulatorMode this then
        emit (console_log "  Emulator Endpoints:") ;;;
        emit (console_log ("    Auth: " +:+ url (auth e))) ;;;
        firestore_port <- lift (to_string (port (firestore e))) ;;
        emit (console_log ("    Firestore: http://" +:+ host (firestore e)
                           +:+ ":" +:+ firestore_port)) ;;;
        emit (console_log ("    Functions: " +:+ baseUrl (functions e)))
      else ret tt
  | None => ret tt
  end.

Definition newline : string := String "010"%char EmptyString.

(** [new ConfigService()].  The object literal assigned to [this.config] is
    evaluated first, with [this.config] still [undefined]; then
    [api.baseUrl] is overwritten in place. *)
Definition constructor (amb : Ambient) : M ConfigService :=
  emit (console_log "[ConfigService] Initializing configuration...") ;;;
  let environment0 := getEnvironment amb in
  firebase0 <- loadFirebaseConfig amb None ;;
  let this0 :=
    {| config := {| environment := environment0; firebase := firebase0;
                    api_baseUrl := "" |} |} in
  api_url <- getApiBaseUrl amb this0 ;;
  let this1 :=
    {| config := {| environment := environment0; firebase := firebase0;
                    api_baseUrl := api_url |} |} in
  let validation := validate this1 in
  if negb (valid validation) then
    throw (ConfigurationError
             "Configuration validation failed"
             (option_map (String.concat newline) (errors validation))
             (Some "Check your .env.local file and ensure Firebase emulators are running"))
  else
    emit (console_log "[ConfigService] ✅ Configuration loaded successfully") ;;;
    logConfiguration this1 ;;;
    ret this1.

(** [ConfigService.getInstance()] *)
Definition getInstance (amb : Ambient) : M ConfigService :=
  cached <- read_instance ;;
  match cached with
  | None =>
      created <- constructor amb ;;
      write_instance (Some created) ;;;
      ret created
  | Some this => ret this
  end.

(** [ConfigService.resetInstance()] *)
Definition resetInstance : M unit :=
  write_instance None.

Definition getConfig (amb : Ambient) : M ConfigService :=
  getInstance amb.

(** A process in which the module has just been loaded. *)
Definition fresh : Process :=
  {| instance := None; console := [] |}.

(** ** Vocabulary of the statements *)

(** The console line every construction starts with. *)
Definition initial_log (s : Process) : Process :=
  snd (emit (console_log "[ConfigService] Initializing configuration...") s).

(** Storing a newly constructed service in the static field. *)
Definition commit (r : completion ConfigService * Process)
  : completion ConfigService * Process :=
  match r with
  | (Normal c, s) => (Normal c, {| instance := Some c; console := console s |})
  | (Abrupt e, s) => (Abrupt e, s)
  end.

(** A run that leaves the static field [ConfigService.instance] alone. *)
Definition keeps_instance {A} (m : M A) : Prop :=
  forall s, instance (snd (m s)) = instance s.

(** A run whose completion does not depend on the state it starts from. *)
Definition state_blind {A} (m : M A) : Prop :=
  forall s1 s2, fst (m s1) = fst (m s2).

(** The five emulated services, the key of each in [firebase.json], its
    fixed default port, and its port in a loaded configuration. *)
Inductive Service := Auth | Firestore | Functions | Storage | Hosting.

#[global] Instance Service_eq_dec : EqDecision Service.
Proof. solve_decision. Defined.

Definition service_key (svc : Service) : string :=
  match svc with
  | Auth => "auth"
  | Firestore => "firestore"
  | Functions => "functions"
  | Storage => "storage"
  | Hosting => "hosting"
  end.

Definition default_port (svc : Service) : Z :=
  match svc with
  | Auth => 9099
  | Firestore => 8080
  | Functions => 5001
  | Storage => 9199
  | Hosting => 5000
  end.

Definition port_of (e : EmulatorConfig) (svc : Service) : json :=
  match svc with
  | Auth => port (auth e)
  | Firestore => port (firestore e)
  | Functions => port (functions e)
  | Storage => port (storage e)
  | Hosting => port (hosting e)
  end.

(** The truthy [emulators] section of a parsed [firebase.json], if any. *)
Definition section_of (content : json) : option json :=
  when_truthy (get content "emulators").

(** The [port] a section gives for a service, [None] when it gives none. *)
Definition file_port (sec : json) (svc : Service) : value :=
  opt_get (get sec (service_key svc)) "port".

Definition is_integer (v : json) : bool :=
  match v with
  | JInt _ => true
  | _ => false
  end.

(** The states in which the loader has no endpoint section to read: no
    file-system access, no file, an unreadable or unparseable file, or a
    parsed file without a truthy [emulators] section. *)
Definition degraded (amb : Ambient) : Prop :=
  isNode amb = false \/
  match firebase_json amb with
  | FileAbsent => True
  | FileUnreadable => True
  | FileMalformed => True
  | FileParsed content => section_of content = None
  end.

(** The project id [loadFirebaseConfig] resolves. *)
Definition resolved_projectId (amb : Ambient) : string :=
  or_literal (or_str (env_var amb "NEXT_PUBLIC_FIREBASE_PROJECT_ID")
                     (env_var amb "FIREBASE_PROJECT_ID")) "demo-project".

(** The error [getApiBaseUrl] throws. *)
Definition api_url_error : exn :=
  ConfigurationError
    "API base URL not configured"
    (Some "No NEXT_PUBLIC_API_URL or Firebase Functions URL found")
    (Some "Set NEXT_PUBLIC_API_URL in .env.local or ensure Firebase emulators are configured").

(** The priority order of the specification, in its words: the explicit
    override, else the function-runner URL of the local endpoints, else the
    production URL override; [None] when all three are absent.  A source
    counts as present when it is a non-empty string. *)
Definition apiBaseUrl_by_priority (override : option string)
    (localEndpoints : option EmulatorConfig) (production_url : option string)
  : option string :=
  match taken override with
  | Some u => Some u
  | None =>
      match localEndpoints with
      | Some e => Some (baseUrl (functions e))
      | None => taken production_url
      end
  end.

(** [text] contains [needle]. *)
Definition names (needle text : string) : bool :=
  match index 0 needle text with
  | Some _ => true
  | None => false
  end.

(** ** Scenarios *)

(** Development, Node, no [firebase.json], nothing in [process.env]. *)
Definition development_unset : Ambient :=
  {| process_env := ∅; isNode := true; firebase_json := FileAbsent |}.

(** Development with a project id override. *)
Definition project_override : Ambient :=
  {| process_env := {["NEXT_PUBLIC_FIREBASE_PROJECT_ID" := "my-app"]};
     isNode := true;
     firebase_json := FileAbsent |}.

(** Production with no credentials and no URL. *)
Definition production_unconfigured : Ambient :=
  {| process_env := {["NODE_ENV" := "production"]};
     isNode := true;
     firebase_json := FileAbsent |}.

(** Production with an API URL and no credentials. *)
Definition production_without_credentials : Ambient :=
  {| process_env :=
       list_to_map
         [("NODE_ENV", "production");
          ("NEXT_PUBLIC_API_URL", "https://api.my-app.example")];
     isNode := true;
     firebase_json := FileAbsent |}.

(** The error the constructor throws for it. *)
Definition missing_credentials_error : exn :=
  ConfigurationError
    "Configuration validation failed"
    (Some ("Firebase apiKey required for production" +:+ String "010"%char
           "Firebase authDomain required for production"))
    (Some "Check your .env.local file and ensure Firebase emulators are running").

(** Production with credentials and the functions URL. *)
Definition production_configured : Ambient :=
  {| process_env :=
       list_to_map
         [("NODE_ENV", "production");
          ("NEXT_PUBLIC_FIREBASE_PROJECT_ID", "my-app");
          ("NEXT_PUBLIC_FIREBASE_API_KEY", "key");
          ("NEXT_PUBLIC_FIREBASE_AUTH_DOMAIN", "my-app.firebaseapp.com");
          ("NEXT_PUBLIC_FIREBASE_FUNCTIONS_URL",
           "https://us-central1-my-app.cloudfunctions.net")];
     isNode := true;
     firebase_json := FileAbsent |}.

(** The state a failed first attempt of [production_unconfigured] leaves. *)
Definition after_failed_attempt : Process :=
  {| instance := None;
     console := [console_log "[ConfigService] Initializing configuration..."] |}.

(** [{"emulators": {"firestore": {"port": 9000}}}] *)
Definition firestore_9000_section : json :=
  JObject {["firestore" := JObject {["port" := JInt 9000]}]}.

Definition firestore_9000 : json :=
  JObject {["emulators" := firestore_9000_section]}.

Definition firestore_port_9000 : Ambient :=
  {| process_env := ∅; isNode := true; firebase_json := FileParsed firestore_9000 |}.

(** [{"emulators": {"firestore": {"port": "abc"}}}] *)
Definition firestore_abc_section : json :=
  JObject {["firestore" := JObject {["port" := JString "abc"]}]}.

Definition firestore_abc : json :=
  JObject {["emulators" := firestore_abc_section]}.

Definition firestore_port_text : Ambient :=
  {| process_env := ∅; isNode := true; firebase_json := FileParsed firestore_abc |}.

(** [{"emulators": {"firestore": {"port": {"toString": 1}}}}] *)
Definition firestore_port_unprintable : Ambient :=
  {| process_env := ∅;
     isNode := true;
     firebase_json :=
       FileParsed
         (JObject {["emulators" :=
            JObject {["firestore" :=
              JObject {["port" := JObject {["toString" := JInt 1]}]}]}]}) |}.

(** Settings of a production service, with and without an API key. *)
Definition production_settings (key : option string) : ConfigService :=
  {| config :=
       {| environment := production;
          firebase :=
            {| projectId := "my-app";
               apiKey := key;
               authDomain := Some "my-app.firebaseapp.com";
               storageBucket := None;
               messagingSenderId := None;
               appId := None;
               emulators := None |};
          api_baseUrl := "https://us-central1-my-app.cloudfunctions.net" |} |}.

(** ** Further vocabulary *)

(** The state after one more console line. *)
Definition logged (s : Process) (entry : console_entry) : Process :=
  snd (emit entry s).

(** The line [loadEmulatorConfig] writes in its [catch] block. *)
Definition load_error_line (err : exn) : console_entry :=
  console_error "[ConfigService] ❌ Error loading firebase.json:" err.

(** The same ambient signals around another [firebase.json]. *)
Definition with_file (amb : Ambient) (file : FirebaseJson) : Ambient :=
  {| process_env := process_env amb; isNode := isNode amb; firebase_json := file |}.

Definition host_of (e : EmulatorConfig) (svc : Service) : string :=
  match svc with
  | Auth => host (auth e)
  | Firestore => host (firestore e)
  | Functions => host (functions e)
  | Storage => host (storage e)
  | Hosting => host (hosting e)
  end.

(** The messages [validate()] returns, none when [errors] is [undefined]. *)
Definition reported (this : ConfigService) : list string :=
  match errors (validate this) with
  | Some errs => errs
  | None => []
  end.

(** The message of a rule, when the rule is violated. *)
Definition rule_message (violated : bool) (message : string) : list string :=
  if violated then [message] else [].

(** [new EmulatorNotRunningError()] of [types.ts]. *)
Definition EmulatorNotRunningError : exn :=
  ConfigurationError
    "Firebase emulators are not running"
    (Some "Unable to detect running Firebase emulators on configured ports")
    (Some ("Resolution:" +:+ newline +:+ "1. Run: npm run dev:all" +:+ newline
           +:+ "2. Or: firebase emulators:start" +:+ newline
           +:+ "3. Check firebase.json for emulator ports")).

(** [{"emulators": {"auth": {"port": {"toString": 1}},
                    "firestore": {"port": 9000}}}] *)
Definition auth_port_unprintable_section : json :=
  JObject (<["auth" := JObject {["port" := JObject {["toString" := JInt 1]}]}]>
           {["firestore" := JObject {["port" := JInt 9000]}]}).

Definition auth_port_unprintable : Ambient :=
  {| process_env := ∅;
     isNode := true;
     firebase_json :=
       FileParsed (JObject {["emulators" := auth_port_unprintable_section]}) |}.

(** Development with the production functions URL set. *)
Definition development_with_functions_url : Ambient :=
  {| process_env :=
       {["NEXT_PUBLIC_FIREBASE_FUNCTIONS_URL" :=
           "https://us-central1-my-app.cloudfunctions.net"]};
     isNode := true;
     firebase_json := FileAbsent |}.

(** The members of [{"firestore": {"port": 9000}}]. *)
Definition firestore_9000_members : gmap string json :=
  {["firestore" := JObject {["port" := JInt 9000]}]}.

(** The variables of [process.env] that carry the credentials. *)
Definition credential_variables : list string :=
  [ "NEXT_PUBLIC_FIREBASE_API_KEY";
    "NEXT_PUBLIC_FIREBASE_AUTH_DOMAIN";
    "NEXT_PUBLIC_FIREBASE_STORAGE_BUCKET";
    "NEXT_PUBLIC_FIREBASE_MESSAGING_SENDER_ID";
    "NEXT_PUBLIC_FIREBASE_APP_ID" ].

(** Two ambients that differ at most in the values of the credentials,
    each credential being empty or unset in both or in neither. *)
Definition same_but_credentials (amb1 amb2 : Ambient) : Prop :=
  isNode amb1 = isNode amb2 /\
  firebase_json amb1 = firebase_json amb2 /\
  (forall name, ~ In name credential_variables ->
     env_var amb1 name = env_var amb2 name) /\
  (forall name, In name credential_variables ->
     truthy_str (env_var amb1 name) = truthy_str (env_var amb2 name)).

(** The same ambient with one variable of [process.env] set. *)
Definition with_env (amb : Ambient) (name value : string) : Ambient :=
  {| process_env := <[name := value]> (process_env amb);
     isNode := isNode amb;
     firebase_json := firebase_json amb |}.

(** ** The scripts: what they write and what they ask of the network *)

Module Script.

(** What a script does to the outside, in order. *)
Inductive event :=
| log (text : string)
| error (text : string)
| write (text : string)
| request (url : string)
| sleep (ms : Z).

(** The requests sent so far, and everything done so far. *)
Record state := {
  requests : nat;
  trace : list event;
}.

Definition emit (e : event) (st : state) : state :=
  {| requests := requests st; trace := (trace st ++ [e])%list |}.

(** [http.request(...)] followed by [req.end()]. *)
Definition send (url : string) (st : state) : state :=
  {| requests := S (requests st); trace := (trace st ++ [request url])%list |}.

Definition start : state := {| requests := 0; trace := [] |}.

(** [text.repeat(n)] *)
Fixpoint repeat_string (text : string) (n : nat) : string :=
  match n with
  | 0 => ""
  | S n' => text +:+ repeat_string text n'
  end.

(** [text.padEnd(n)], for [text] in ASCII. *)
Definition padEnd (text : string) (n : nat) : string :=
  text +:+ repeat_string " " (n - String.length text).

Definition carriage_return : string := String "013"%char EmptyString.

End Script.

(** ** [scripts/e2e-health.js] *)

Module E2eHealth.
Import Script.

Record HealthCheck := {
  name : string;
  url : string;
  required : bool;
}.

Definition HEALTH_CHECKS : list HealthCheck :=
  [ {| name := "Next.js Dev Server"; url := "http://localhost:3004"; required := true |};
    {| name := "Firebase Auth"; url := "http://localhost:9099"; required := true |};
    {| name := "Firebase Firestore"; url := "http://localhost:8081"; required := true |};
    {| name := "Firebase Functions"; url := "http://localhost:5002"; required := true |};
    {| name := "Firebase Storage"; url := "http://localhost:9199"; required := false |};
    {| name := "Firebase Hosting"; url := "http://localhost:5000"; required := false |} ].

(** What [checkService] resolves with. *)
Inductive CheckResult :=
| Healthy (responseTime : Z) (status : Z)
| Unhealthy (error : string).

Definition healthy (r : CheckResult) : bool :=
  match r with
  | Healthy _ _ => true
  | Unhealthy _ => false
  end.

(** An element of [results]: the check, the result spread over it, and
    [passed]. *)
Record Outcome := {
  check : HealthCheck;
  result : CheckResult;
  passed : bool;
}.

Section Main.

(** The answer to the [n]-th request of the run, sent to [url]; and
    [(ms / 1000).toFixed(2)], a floating-point rendering. *)
Variable respond : string -> nat -> CheckResult.
Variable seconds_toFixed2 : Z -> string.

Definition checkService (name url : string) (st : state) : CheckResult * state :=
  (respond url (requests st), send url st).

Definition formatTime (ms : Z) : string :=
  if (ms <? 1000)%Z then number_to_string ms +:+ "ms"
  else seconds_toFixed2 ms +:+ "s".

(** The [for] loop of [main] over the checks left, with [results] and
    [hasFailures] as they stand. *)
Fixpoint check_each (checks : list HealthCheck) (results : list Outcome)
    (hasFailures : bool) (st : state) : list Outcome * bool * state :=
  match checks with
  | [] => (results, hasFailures, st)
  | c :: rest =>
      let st1 := emit (write ("   " +:+ padEnd (name c) 30 +:+ " ")) st in
      let (r, st2) := checkService (name c) (url c) st1 in
      match r with
      | Healthy responseTime _ =>
          let timeStr := formatTime responseTime in
          check_each rest
            (results ++ [{| check := c; result := r; passed := true |}])%list
            hasFailures
            (emit (log ("✅ OK (" +:+ timeStr +:+ ")")) st2)
      | Unhealthy err =>
          if required c then
            check_each rest
              (results ++ [{| check := c; result := r; passed := false |}])%list
              true
              (emit (log ("❌ FAILED - " +:+ err)) st2)
          else
            check_each rest
              (results ++ [{| check := c; result := r; passed := true |}])%list
              hasFailures
              (emit (log "⚠️  NOT RUNNING (optional)") st2)
      end
  end.

(** [result.error], [undefined] on a healthy result. *)
Definition error_text (r : CheckResult) : string :=
  match r with
  | Unhealthy err => err
  | Healthy _ _ => "undefined"
  end.

(** [results.forEach(...)] of the failure summary. *)
Fixpoint list_failures (results : list Outcome) (st : state) : state :=
  match results with
  | [] => st
  | o :: rest =>
      if negb (passed o) && required (check o) then
        list_failures rest
          (emit (log ("   - " +:+ name (check o) +:+ ": " +:+ error_text (result o))) st)
      else list_failures rest st
  end.

(** [results.forEach(...)] of the list of service URLs. *)
Fixpoint list_urls (results : list Outcome) (st : state) : state :=
  match results with
  | [] => st
  | o :: rest =>
      if healthy (result o) then
        list_urls rest
          (emit (log ("   " +:+ padEnd (name (check o)) 30 +:+ " " +:+ url (check o))) st)
      else list_urls rest st
  end.

(** [main()] over the checks [checks]; the number returned is the argument
    of [process.exit]. *)
Definition main_over (checks : list HealthCheck) (st : state) : Z * state :=
  let st := emit (log "╔════════════════════════════════════════════════════════════╗") st in
  let st := emit (log "║      E2E Environment Health Check - SavvyProxy            ║") st in
  let st := emit (log ("╚════════════════════════════════════════════════════════════╝" +:+ newline)) st in
  let st := emit (log ("🔍 Checking services..." +:+ newline)) st in
  let '(results, hasFailures, st) := check_each checks [] false st in
  let st := emit (log (newline +:+ repeat_string "═" 64)) st in
  if hasFailures then
    let st := emit (log (newline +:+ "❌ Health Check FAILED" +:+ newline)) st in
    let st := emit (log "The following required services are not responding:") st in
    let st := list_failures results st in
    let st := emit (log (newline +:+ "💡 To start the E2E environment:")) st in
    let st := emit (log ("   npm run e2e:start" +:+ newline)) st in
    (1%Z, st)
  else
    let st := emit (log (newline +:+ "✅ All Services Healthy!" +:+ newline)) st in
    let st := emit (log "📍 Service URLs:") st in
    let st := list_urls results st in
    let st := emit (log (newline +:+ "🎉 E2E environment is ready for testing!" +:+ newline)) st in
    (0%Z, st).

Definition main : state -> Z * state := main_over HEALTH_CHECKS.

End Main.
End E2eHealth.


(** ** [scripts/e2e-start.js]: waiting for a service *)

Module E2eStart.
Import Script.

Section Wait.

(** Whether the [n]-th request of the run, sent to [url], gets a response
    within its two seconds. *)
Variable respond : string -> nat -> bool.

Definition isServiceRunning (url : string) (st : state) : bool * state :=
  (respond url (requests st), send url st).

(** The [for] loop of [waitForService] with [remaining] iterations left:
    [attempt] is [maxAttempts - remaining + 1]. *)
Fixpoint attempts (name url : string) (maxAttempts : nat) (interval : Z)
    (remaining : nat) (st : state) : bool * state :=
  match remaining with
  | 0 =>
      (false,
       emit (error ("❌ " +:+ name +:+ " failed to start after "
                    +:+ number_to_string (Z.of_nat maxAttempts) +:+ " attempts")) st)
  | S remaining' =>
      let attempt := (maxAttempts - remaining + 1)%nat in
      let (isRunning, st1) := isServiceRunning url st in
      if isRunning then
        (true, emit (log ("✅ " +:+ name +:+ " is ready!")) st1)
      else
        let st2 :=
          emit (write ("   Attempt " +:+ number_to_string (Z.of_nat attempt) +:+ "/"
                       +:+ number_to_string (Z.of_nat maxAttempts) +:+ "..."
                       +:+ carriage_return)) st1 in
        attempts name url maxAttempts interval remaining' (emit (sleep interval) st2)
  end.

(** [waitForService(name, url, maxAttempts, interval)], for a natural number
    of attempts. *)
Definition waitForService (name url : string) (maxAttempts : nat) (interval : Z)
    (st : state) : bool * state :=
  attempts name url maxAttempts interval maxAttempts
    (emit (log ("⏳ Waiting for " +:+ name +:+ " at " +:+ url +:+ "...")) st).

End Wait.
End E2eStart.

(** ** [setup.js]: the Node version check and the environment file *)

Module Setup.

(** The ANSI colour table [colors]. *)
Inductive color := reset | bright | green | red | yellow | blue | cyan.

Definition escape : string := String "027"%char EmptyString.

Definition colors (c : color) : string :=
  match c with
  | reset => escape +:+ "[0m"
  | bright => escape +:+ "[1m"
  | green => escape +:+ "[32m"
  | red => escape +:+ "[31m"
  | yellow => escape +:+ "[33m"
  | blue => escape +:+ "[34m"
  | cyan => escape +:+ "[36m"
  end.

(** The lines written with [console.log], in order. *)
Definition console := list string.

Definition log (message : string) (c : color) (out : console) : console :=
  (out ++ [colors c +:+ message +:+ colors reset])%list.

Definition logSuccess (message : string) : console -> console :=
  log ("✅ " +:+ message) green.

Definition logError (message : string) : console -> console :=
  log ("❌ " +:+ message) red.

Definition logWarning (message : string) : console -> console :=
  log ("⚠️  " +:+ message) yellow.

Definition logInfo (message : string) : console -> console :=
  log ("ℹ️  " +:+ message) cyan.

Definition logStep (step message : string) : console -> console :=
  log (newline +:+ "[" +:+ step +:+ "] " +:+ message) blue.

(** [text.slice(1)] and [text.split('.')[0]], on ASCII text. *)
Definition slice1 (text : string) : string :=
  match text with
  | EmptyString => EmptyString
  | String _ rest => rest
  end.

Fixpoint before_dot (text : string) : string :=
  match text with
  | EmptyString => EmptyString
  | String c rest => if Ascii.eqb c "." then EmptyString else String c (before_dot rest)
  end.

(** [parseInt(text)] without a radix; [None] is [NaN].  Leading white space
    is skipped (the ASCII white space; the script never meets another), a
    sign is read, a [0x] prefix selects base sixteen, and the longest prefix
    of digits gives the value. *)
Definition is_space (c : ascii) : bool :=
  let n := nat_of_ascii c in
  Nat.eqb n 9 || Nat.eqb n 10 || Nat.eqb n 11 || Nat.eqb n 12 || Nat.eqb n 13
  || Nat.eqb n 32.

Fixpoint skip_spaces (text : string) : string :=
  match text with
  | EmptyString => EmptyString
  | String c rest => if is_space c then skip_spaces rest else text
  end.

(** The value of [c] as a digit in base [radix]. *)
Definition digit_value (radix : N) (c : ascii) : option N :=
  let n := N_of_ascii c in
  let v :=
    if (48 <=? n)%N && (n <=? 57)%N then Some (n - 48)%N
    else if (97 <=? n)%N && (n <=? 122)%N then Some (n - 87)%N
    else if (65 <=? n)%N && (n <=? 90)%N then Some (n - 55)%N
    else None in
  match v with
  | Some d => if (d <? radix)%N then Some d else None
  | None => None
  end.

(** The value of the longest prefix of digits of [text], after the digits
    whose value is [acc]; [seen] tells whether a digit was read. *)
Fixpoint digits (radix : N) (text : string) (seen : bool) (acc : N) : option N :=
  match text with
  | EmptyString => if seen then Some acc else None
  | String c rest =>
      match digit_value radix c with
      | Some d => digits radix rest true (acc * radix + d)%N
      | None => if seen then Some acc else None
      end
  end.

Definition unsigned (text : string) : option N :=
  match text with
  | String "0" (String "x" rest) => digits 16 rest false 0
  | String "0" (String "X" rest) => digits 16 rest false 0
  | _ => digits 10 text false 0
  end.

Definition parseInt (text : string) : option Z :=
  match skip_spaces text with
  | String "-" rest => option_map (fun n => (- Z.of_N n)%Z) (unsigned rest)
  | String "+" rest => option_map Z.of_N (unsigned rest)
  | rest => option_map Z.of_N (unsigned rest)
  end.

(** [checkNodeVersion()], for [process.version]. *)
Definition checkNodeVersion (version : string) (out : console) : bool * console :=
  let out := logStep "1/5" "Validating Node.js version..." out in
  let currentVersion := version in
  let versionNumber := parseInt (before_dot (slice1 currentVersion)) in
  let requiredVersion := 18%Z in
  let out := logInfo ("Current version: " +:+ currentVersion) out in
  if match versionNumber with
     | Some n => (requiredVersion <=? n)%Z
     | None => false
     end
  then
    (true, logSuccess ("Node.js " +:+ number_to_string requiredVersion
                       +:+ "+ requirement met") out)
  else
    let out := logError ("Node.js " +:+ number_to_string requiredVersion
                         +:+ " or higher is required") out in
    (false, logInfo "Please upgrade Node.js: https://nodejs.org/" out).

Section EnvironmentFile.

(** The two paths [path.join(__dirname, ...)] resolves to. *)
Variable envExample envLocal : string.

(** [setupEnvironmentFile()], over the file system [fs] (the files that
    exist, with their contents); [copy_error] is the message of the error
    [fs.copyFileSync] throws, if it throws. *)
Definition setupEnvironmentFile (copy_error : option string)
    (fs : gmap string string) (out : console)
  : bool * gmap string string * console :=
  let out := logStep "4/5" "Setting up environment configuration..." out in
  match fs !! envExample with
  | None =>
      let out := logError ".env.local.example not found" out in
      (false, fs, logInfo "Expected location: apps/web/.env.local.example" out)
  | Some example =>
      match fs !! envLocal with
      | Some _ => (true, fs, logSuccess ".env.local already exists" out)
      | None =>
          match copy_error with
          | None =>
              let fs := <[envLocal := example]> fs in
              let out := logSuccess "Created .env.local from .env.local.example" out in
              let out :=
                logWarning "Please update .env.local with your Firebase project credentials"
                  out in
              (true, fs, logInfo "Location: apps/web/.env.local" out)
          | Some message =>
              let out := logError "Failed to create .env.local" out in
              (false, fs, logInfo ("Error: " +:+ message) out)
          end
      end
  end.

End EnvironmentFile.
End Setup.

(** ** Vocabulary for the scripts *)

(** The URLs requested and the pauses taken along a trace, in order. *)
Definition requested (tr : list Script.event) : list string :=
  omap (fun e => match e with Script.request u => Some u | _ => None end) tr.

Definition slept (tr : list Script.event) : list Z :=
  omap (fun e => match e with Script.sleep ms => Some ms | _ => None end) tr.

(** Whether a required check among [checks] gets no response, the first of
    them being answered as request [n]. *)
Fixpoint required_down (respond : string -> nat -> E2eHealth.CheckResult)
    (checks : list E2eHealth.HealthCheck) (n : nat) : bool :=
  match checks with
  | [] => false
  | c :: rest =>
      (E2eHealth.required c && negb (E2eHealth.healthy (respond (E2eHealth.url c) n)))
      || required_down respond rest (S n)
  end.

(** The decimal numeral of a natural number. *)
Definition numeral (n : nat) : string := NilZero.string_of_uint (Nat.to_uint n).

Definition is_digit (c : ascii) : bool :=
  match Setup.digit_value 10 c with
  | Some _ => true
  | None => false
  end.

Fixpoint all_digits (text : string) : bool :=
  match text with
  | EmptyString => true
  | String c rest => is_digit c && all_digits rest
  end.

(** ** Runs of the monad *)

Ltac run :=
  cbn [bind ret throw lift emit try_catch read_instance write_instance
       fst snd negb cbind instance console].

Section Runs.
Context {A B : Type}.

Lemma keeps_ret (a : A) : keeps_instance (ret a).
Proof. intros s. reflexivity. Qed.

Lemma keeps_throw (e : exn) : keeps_instance (@throw A e).
Proof. intros s. reflexivity. Qed.

Lemma keeps_lift (c : completion A) : keeps_instance (lift c).
Proof. intros s. reflexivity. Qed.

Lemma keeps_bind (m : M A) (k : A -> M B) :
  keeps_instance m -> (forall a, keeps_instance (k a)) -> keeps_instance (bind m k).
Proof.
  intros Hm Hk s. unfold bind. specialize (Hm s).
  destruct (m s) as [[a | e] s1]; cbn in *.
  - rewrite Hk. exact Hm.
  - exact Hm.
Qed.

Lemma keeps_try_catch (body : M A) (handler : exn -> M A) :
  keeps_instance body -> (forall e, keeps_instance (handler e)) ->
  keeps_instance (try_catch body handler).
Proof.
  intros Hb Hh s. unfold try_catch. specialize (Hb s).
  destruct (body s) as [[a | e] s1]; cbn in *.
  - exact Hb.
  - rewrite Hh. exact Hb.
Qed.

Lemma blind_ret (a : A) : state_blind (ret a).
Proof. intros s1 s2. reflexivity. Qed.

Lemma blind_throw (e : exn) : state_blind (@throw A e).
Proof. intros s1 s2. reflexivity. Qed.

Lemma blind_lift (c : completion A) : state_blind (lift c).
Proof. intros s1 s2. reflexivity. Qed.

Lemma blind_bind (m : M A) (k : A -> M B) :
  state_blind m -> (forall a, state_blind (k a)) -> state_blind (bind m k).
Proof.
  intros Hm Hk s1 s2. unfold bind. specialize (Hm s1 s2).
  destruct (m s1) as [[a1 | e1] t1], (m s2) as [[a2 | e2] t2];
    cbn in Hm; try discriminate.
  - injection Hm as <-. apply Hk.
  - injection Hm as <-. reflexivity.
Qed.

Lemma blind_try_catch (body : M A) (handler : exn -> M A) :
  state_blind body -> (forall e, state_blind (handler e)) ->
  state_blind (try_catch body handler).
Proof.
  intros Hb Hh s1 s2. unfold try_catch. specialize (Hb s1 s2).
  destruct (body s1) as [[a1 | e1] t1], (body s2) as [[a2 | e2] t2];
    cbn in Hb; try discriminate.
  - exact Hb.
  - injection Hb as <-. apply Hh.
Qed.
End Runs.

Lemma keeps_emit (entry : console_entry) : keeps_instance (emit entry).
Proof. intros s. reflexivity. Qed.

Lemma blind_emit (entry : console_entry) : state_blind (emit entry).
Proof. intros s1 s2. reflexivity. Qed.

Create HintDb runs.
#[local] Hint Resolve keeps_ret keeps_throw keeps_lift keeps_emit : runs.
#[local] Hint Resolve blind_ret blind_throw blind_lift blind_emit : runs.

(** Walks through a method body, one statement at a time. *)
Ltac walk :=
  repeat first
    [ apply keeps_bind; [ | intro ]
    | apply keeps_try_catch; [ | intro ]
    | apply blind_bind; [ | intro ]
    | apply blind_try_catch; [ | intro ]
    | solve [ auto with runs ]
    | match goal with
      | |- keeps_instance (if ?b then _ else _) => destruct b
      | |- keeps_instance (match ?x with _ => _ end) => destruct x
      | |- state_blind (if ?b then _ else _) => destruct b
      | |- state_blind (match ?x with _ => _ end) => destruct x
      end ].

Lemma keeps_loadEmulatorConfig amb this_config :
  keeps_instance (loadEmulatorConfig amb this_config).
Proof. unfold loadEmulatorConfig, loadEmulatorConfig_try. walk. Qed.

Lemma keeps_constructor amb : keeps_instance (constructor amb).
Proof.
  unfold constructor, loadFirebaseConfig, getApiBaseUrl, logConfiguration.
  walk; apply keeps_loadEmulatorConfig.
Qed.

(** The outcome of construction is the same from every state. *)
Lemma blind_constructor amb : state_blind (constructor amb).
Proof.
  unfold constructor, loadFirebaseConfig, loadEmulatorConfig, loadEmulatorConfig_try,
    getApiBaseUrl, logConfiguration.
  walk.
Qed.

(** ** [getInstance] *)

Lemma getInstance_empty amb s :
  instance s = None -> getInstance amb s = commit (constructor amb s).
Proof.
  intros Hs. unfold getInstance, bind at 1, read_instance. rewrite Hs.
  unfold bind at 1, commit.
  destruct (constructor amb s) as [[c | e] s1]; reflexivity.
Qed.

Lemma getInstance_cached amb s c :
  instance s = Some c -> getInstance amb s = (Normal c, s).
Proof.
  intros Hs. unfold getInstance, bind at 1, read_instance. rewrite Hs. reflexivity.
Qed.

Lemma getInstance_sets_instance amb s c s' :
  getInstance amb s = (Normal c, s') -> instance s' = Some c.
Proof.
  destruct (instance s) as [c0 | ] eqn:Hs.
  - rewrite (getInstance_cached _ _ _ Hs). intros [= <- <-]. exact Hs.
  - rewrite (getInstance_empty _ _ Hs). unfold commit.
    destruct (constructor amb s) as [[c1 | e] s1]; [ | discriminate ].
    intros [= <- <-]. reflexivity.
Qed.

(** [resetInstance()] makes the next [getInstance()] construct again. *)
Lemma resetInstance_then_getInstance amb s :
  (resetInstance ;;; getInstance amb) s
  = commit (constructor amb {| instance := None; console := console s |}).
Proof.
  unfold bind at 1, resetInstance, write_instance.
  apply getInstance_empty. reflexivity.
Qed.

(** ** ToString *)

(** The only error a template literal raises on parsed JSON. *)
Lemma to_string_abrupt : forall v e, to_string v = Abrupt e -> e = TypeError.
Proof.
  fix IH 1.
  intros [ | [ | ] | z | r | t | items | members] e; cbn [to_string]; try discriminate.
  - induction items as [ | x rest IHrest]; [ discriminate | ].
    cbn [join_with].
    destruct (match x with JNull => Normal "" | _ => to_string x end)
      as [sx | ex] eqn:Hx; cbn [cbind].
    + destruct rest as [ | y rest']; [ discriminate | ].
      fold (join_with (fun x => match x with JNull => Normal "" | _ => to_string x end)
              (y :: rest')).
      destruct (join_with _ (y :: rest')) as [r | er] eqn:Hr; cbn [cbind];
        [ discriminate | ].
      intros [= <-]. apply IHrest. reflexivity.
    + intros [= <-]. pose proof (IH x ex) as IHx.
      destruct x; try discriminate; exact (IHx Hx).
  - destruct (members !! "toString"); [ | discriminate ]. intros [= <-]. reflexivity.
Qed.

(** ** [loadEmulatorConfig] *)

Lemma loadEmulatorConfig_try_result amb this_config s :
  exists s',
    match firebase_json amb with
    | FileAbsent =>
        loadEmulatorConfig_try amb this_config s
        = (Normal (getDefaultEmulatorConfig this_config), s')
    | FileUnreadable =>
        loadEmulatorConfig_try amb this_config s = (Abrupt SystemError, s')
    | FileMalformed =>
        loadEmulatorConfig_try amb this_config s = (Abrupt SyntaxError, s')
    | FileParsed JNull =>
        loadEmulatorConfig_try amb this_config s = (Abrupt TypeError, s')
    | FileParsed content =>
        match section_of content with
        | None =>
            loadEmulatorConfig_try amb this_config s
            = (Normal (getDefaultEmulatorConfig this_config), s')
        | Some sec =>
            loadEmulatorConfig_try amb this_config s
            = (emulators_from_file sec this_config, s')
        end
    end.
Proof.
  unfold loadEmulatorConfig_try, section_of.
  destruct (firebase_json amb) as [ | | | content]; cbn [existsSync read_and_parse negb].
  - eexists; reflexivity.
  - eexists; reflexivity.
  - eexists; reflexivity.
  - destruct content; cbn [get_strict]; run;
      try (destruct (when_truthy _); run); eexists; reflexivity.
Qed.

(** The loader returns the defaults, or what the section of the file gives. *)
Lemma loadEmulatorConfig_cases amb this_config s :
  exists e s',
    loadEmulatorConfig amb this_config s = (Normal e, s') /\
    (e = getDefaultEmulatorConfig this_config \/
     exists content sec,
       isNode amb = true /\ firebase_json amb = FileParsed content /\
       section_of content = Some sec /\
       emulators_from_file sec this_config = Normal e).
Proof.
  unfold loadEmulatorConfig.
  destruct (isNode amb) eqn:Hnode; cbn [negb]; [ | run; eauto ].
  unfold try_catch.
  destruct (loadEmulatorConfig_try_result amb this_config s) as [s1 H].
  destruct (firebase_json amb) as [ | | | content] eqn:Hfile;
    [ rewrite H; eauto | rewrite H; run; eauto | rewrite H; run; eauto | ].
  assert (Hsec :
    match section_of content with
    | None =>
        (exists e, loadEmulatorConfig_try amb this_config s = (Abrupt e, s1)) \/
        loadEmulatorConfig_try amb this_config s
        = (Normal (getDefaultEmulatorConfig this_config), s1)
    | Some sec =>
        loadEmulatorConfig_try amb this_config s
        = (emulators_from_file sec this_config, s1)
    end).
  { destruct content; try exact H;
      [ unfold section_of; cbn; eauto | destruct (section_of _); eauto .. ]. }
  clear H.
  destruct (section_of content) as [sec | ] eqn:Hs.
  - rewrite Hsec.
    destruct (emulators_from_file sec this_config) as [e | err] eqn:He; run.
    + do 2 eexists. split; [ reflexivity | ]. right. eauto 10.
    + eauto.
  - destruct Hsec as [[err Hsec] | Hsec]; rewrite Hsec; run; eauto.
Qed.

Lemma loadEmulatorConfig_degraded amb this_config s :
  degraded amb ->
  exists s',
    loadEmulatorConfig amb this_config s
    = (Normal (getDefaultEmulatorConfig this_config), s').
Proof.
  intros Hd.
  destruct (loadEmulatorConfig_cases amb this_config s)
    as (e & s' & Hrun & [-> | Hfile]); [ eauto | ].
  destruct Hfile as (content & sec & Hn & Hf & Hs & _).
  destruct Hd as [Hd | Hd]; [ congruence | ].
  rewrite Hf in Hd. congruence.
Qed.

Lemma loadEmulatorConfig_from_file amb this_config s content sec e :
  isNode amb = true ->
  firebase_json amb = FileParsed content ->
  section_of content = Some sec ->
  emulators_from_file sec this_config = Normal e ->
  exists s', loadEmulatorConfig amb this_config s = (Normal e, s').
Proof.
  intros Hn Hf Hs He.
  unfold loadEmulatorConfig. rewrite Hn. cbn [negb]. unfold try_catch.
  destruct (loadEmulatorConfig_try_result amb this_config s) as [s1 H].
  rewrite Hf in H.
  assert (content <> JNull) by (intros ->; discriminate).
  assert (loadEmulatorConfig_try amb this_config s = (Normal e, s1)) as ->.
  { destruct content; try congruence; rewrite Hs in H; rewrite H; congruence. }
  eauto.
Qed.

(** The loader never completes abruptly, and in every degraded state it
    returns the built-in defaults. *)
Lemma loadEmulatorConfig_never_raises amb this_config s :
  exists e s',
    loadEmulatorConfig amb this_config s = (Normal e, s') /\
    instance s' = instance s /\
    (degraded amb -> e = getDefaultEmulatorConfig this_config).
Proof.
  destruct (loadEmulatorConfig_cases amb this_config s) as (e & s' & Hrun & _).
  exists e, s'. split; [ exact Hrun | ]. split.
  - pose proof (keeps_loadEmulatorConfig amb this_config s) as Hk.
    rewrite Hrun in Hk. exact Hk.
  - intros Hd.
    destruct (loadEmulatorConfig_degraded amb this_config s Hd) as [s0 Hrun0].
    congruence.
Qed.

Lemma emulators_from_file_ports sec this_config e :
  emulators_from_file sec this_config = Normal e ->
  forall svc, port_of e svc = or_default (file_port sec svc) (default_port svc).
Proof.
  unfold emulators_from_file. intros H.
  destruct (to_string (service_port sec "auth" 9099)); [ | discriminate ].
  destruct (to_string (service_port sec "functions" 5001)); [ | discriminate ].
  cbn [cbind] in H. injection H as <-. intros []; reflexivity.
Qed.

Lemma emulators_from_file_baseUrl sec this_config e :
  emulators_from_file sec this_config = Normal e ->
  exists p,
    to_string (port (functions e)) = Normal p /\
    baseUrl (functions e)
    = "http://localhost:" +:+ p +:+ "/" +:+ project_or_placeholder this_config
      +:+ "/us-central1".
Proof.
  unfold emulators_from_file. intros H.
  destruct (to_string (service_port sec "auth" 9099)); [ | discriminate ].
  destruct (to_string (service_port sec "functions" 5001)) as [p | ] eqn:Hp;
    [ | discriminate ].
  cbn [cbind] in H. injection H as <-. exists p. split; [ exact Hp | reflexivity ].
Qed.

(** ** Construction *)

Lemma or_literal_nonempty v d : d <> "" -> or_literal v d <> "".
Proof.
  intros Hd. unfold or_literal, taken, truthy_str.
  destruct v as [x | ]; [ | exact Hd ].
  destruct (String.eqb x "") eqn:E; cbn [negb]; [ exact Hd | ].
  apply String.eqb_neq in E. exact E.
Qed.

(** The placeholder keeps the project id from ever being empty. *)
Lemma resolved_projectId_nonempty amb : resolved_projectId amb <> "".
Proof. apply or_literal_nonempty. discriminate. Qed.

Lemma loadFirebaseConfig_run amb this_config s :
  exists fb s',
    loadFirebaseConfig amb this_config s = (Normal fb, s') /\
    projectId fb = resolved_projectId amb /\
    apiKey fb = env_var amb "NEXT_PUBLIC_FIREBASE_API_KEY" /\
    authDomain fb = env_var amb "NEXT_PUBLIC_FIREBASE_AUTH_DOMAIN" /\
    match getEnvironment amb with
    | development =>
        exists e,
          emulators fb = Some e /\
          loadEmulatorConfig amb this_config s = (Normal e, s')
    | _ => emulators fb = None /\ s' = s
    end.
Proof.
  unfold loadFirebaseConfig.
  destruct (getEnvironment amb); cbn [Environment_eqb].
  - destruct (loadEmulatorConfig_cases amb this_config s) as (e & s' & Hrun & _).
    unfold bind. rewrite Hrun. run. cbn [projectId apiKey authDomain emulators].
    eauto 12.
  - run. cbn [projectId apiKey authDomain emulators]. eauto 12.
  - run. cbn [projectId apiKey authDomain emulators]. eauto 12.
Qed.

Lemma getApiBaseUrl_run amb this s :
  getApiBaseUrl amb this s =
    (match apiBaseUrl_by_priority (env_var amb "NEXT_PUBLIC_API_URL")
             (emulators (firebase (config this)))
             (env_var amb "NEXT_PUBLIC_FIREBASE_FUNCTIONS_URL") with
     | Some u => Normal u
     | None => Abrupt api_url_error
     end, s).
Proof.
  unfold getApiBaseUrl, apiBaseUrl_by_priority.
  destruct (taken (env_var amb "NEXT_PUBLIC_API_URL")); [ reflexivity | ].
  destruct (emulators (firebase (config this))); [ reflexivity | ].
  destruct (taken (env_var amb "NEXT_PUBLIC_FIREBASE_FUNCTIONS_URL")); reflexivity.
Qed.

(** The summary fails only where it prints the firestore port. *)
Lemma logConfiguration_run this s :
  exists s',
    logConfiguration this s =
      (match emulators (firebase (config this)) with
       | Some e =>
           if isEmulatorMode this
           then cbind (to_string (port (firestore e))) (fun _ => Normal tt)
           else Normal tt
       | None => Normal tt
       end, s').
Proof.
  unfold logConfiguration.
  repeat (unfold bind at 1; cbn [emit]).
  destruct (emulators (firebase (config this))) as [e | ]; [ | run; eauto ].
  destruct (isEmulatorMode this); [ | run; eauto ].
  repeat (unfold bind at 1; cbn [emit]).
  unfold lift. destruct (to_string (port (firestore e))); run; eauto.
Qed.

Lemma validate_development this e :
  environment (config this) = development ->
  projectId (firebase (config this)) <> "" ->
  emulators (firebase (config this)) = Some e ->
  validate this = {| valid := true; errors := None |}.
Proof.
  intros Henv Hid Hem. unfold validate. rewrite Henv, Hem.
  apply String.eqb_neq in Hid. rewrite Hid. reflexivity.
Qed.

(** Construction, once the Firebase settings are loaded. *)
Lemma constructor_unfold amb s fb s1 :
  loadFirebaseConfig amb None (initial_log s) = (Normal fb, s1) ->
  constructor amb s =
    match getApiBaseUrl amb
            {| config := {| environment := getEnvironment amb; firebase := fb;
                            api_baseUrl := "" |} |} s1 with
    | (Normal api_url, s2) =>
        let this1 :=
          {| config := {| environment := getEnvironment amb; firebase := fb;
                          api_baseUrl := api_url |} |} in
        if valid (validate this1) then
          match logConfiguration this1
                  (snd (emit (console_log
                     "[ConfigService] ✅ Configuration loaded successfully") s2)) with
          | (Normal _, s3) => (Normal this1, s3)
          | (Abrupt e, s3) => (Abrupt e, s3)
          end
        else
          (Abrupt (ConfigurationError
             "Configuration validation failed"
             (option_map (String.concat newline) (errors (validate this1)))
             (Some "Check your .env.local file and ensure Firebase emulators are running")),
           s2)
    | (Abrupt e, s2) => (Abrupt e, s2)
    end.
Proof.
  intros Hfb. unfold constructor, initial_log in *.
  unfold bind at 1. cbn [emit]. unfold bind at 1. cbn [emit snd] in Hfb. rewrite Hfb.
  unfold bind at 1.
  destruct (getApiBaseUrl _ _ s1) as [[api_url | e] s2]; [ | reflexivity ].
  cbn zeta.
  destruct (valid (validate _)); cbn [negb].
  - unfold bind at 1. cbn [emit snd]. unfold bind at 1.
    destruct (logConfiguration _ _) as [[[] | e] s3]; reflexivity.
  - reflexivity.
Qed.

(** What a successful construction has stored. *)
Lemma constructor_success amb s c s' :
  constructor amb s = (Normal c, s') ->
  environment (config c) = getEnvironment amb /\
  projectId (firebase (config c)) = resolved_projectId amb /\
  apiKey (firebase (config c)) = env_var amb "NEXT_PUBLIC_FIREBASE_API_KEY" /\
  authDomain (firebase (config c)) = env_var amb "NEXT_PUBLIC_FIREBASE_AUTH_DOMAIN" /\
  match getEnvironment amb with
  | development =>
      exists e s1,
        emulators (firebase (config c)) = Some e /\
        loadEmulatorConfig amb None (initial_log s) = (Normal e, s1)
  | _ => emulators (firebase (config c)) = None
  end /\
  apiBaseUrl_by_priority (env_var amb "NEXT_PUBLIC_API_URL")
    (emulators (firebase (config c)))
    (env_var amb "NEXT_PUBLIC_FIREBASE_FUNCTIONS_URL") = Some (api_baseUrl (config c)) /\
  valid (validate c) = true.
Proof.
  intros Hrun.
  destruct (loadFirebaseConfig_run amb None (initial_log s))
    as (fb & s1 & Hfb & Hid & Hkey & Hdom & Hem).
  rewrite (constructor_unfold _ _ _ _ Hfb), getApiBaseUrl_run in Hrun.
  cbn [config firebase] in Hrun.
  destruct (apiBaseUrl_by_priority _ _ _) as [u | ] eqn:Hu; [ | discriminate ].
  cbn zeta in Hrun.
  destruct (valid (validate _)) eqn:Hv; [ | discriminate ].
  destruct (logConfiguration _ _) as [[[] | err] s3]; [ | discriminate ].
  injection Hrun as <- <-. cbn [config environment firebase api_baseUrl].
  repeat split; auto.
  destruct (getEnvironment amb); [ | tauto | tauto ].
  destruct Hem as (e & He & Hload). eauto.
Qed.

(** The three ways construction aborts. *)
Lemma constructor_aborts amb s err s' :
  constructor amb s = (Abrupt err, s') ->
  err = api_url_error \/
  (exists details resolution,
     err = ConfigurationError "Configuration validation failed" details resolution) \/
  err = TypeError.
Proof.
  intros Hrun.
  destruct (loadFirebaseConfig_run amb None (initial_log s)) as (fb & s1 & Hfb & _).
  rewrite (constructor_unfold _ _ _ _ Hfb), getApiBaseUrl_run in Hrun.
  destruct (apiBaseUrl_by_priority _ _ _) as [u | ]; [ | left; congruence ].
  cbn zeta in Hrun.
  destruct (valid (validate _)); [ | right; left; injection Hrun as <- _; eauto ].
  edestruct logConfiguration_run as [s3 Hlog]. rewrite Hlog in Hrun. clear Hlog.
  cbn [config firebase] in Hrun.
  destruct (emulators fb) as [e | ]; [ | discriminate ].
  destruct (isEmulatorMode _); [ | discriminate ].
  destruct (to_string (port (firestore e))) as [q | terr] eqn:Hq; cbn [cbind] in Hrun;
    [ discriminate | ].
  right; right. injection Hrun as <- _. exact (to_string_abrupt _ _ Hq).
Qed.

(** In development, construction succeeds as soon as the summary can print
    the firestore port. *)
Lemma constructor_development amb s e s1 p :
  getEnvironment amb = development ->
  loadEmulatorConfig amb None (initial_log s) = (Normal e, s1) ->
  to_string (port (firestore e)) = Normal p ->
  exists c s',
    constructor amb s = (Normal c, s') /\
    environment (config c) = development /\
    projectId (firebase (config c)) = resolved_projectId amb /\
    emulators (firebase (config c)) = Some e.
Proof.
  intros Henv Hload Hp.
  destruct (loadFirebaseConfig_run amb None (initial_log s))
    as (fb & s1' & Hfb & Hid & _ & _ & Hem).
  rewrite Henv in Hem. destruct Hem as (e' & Hem & Hload').
  rewrite Hload in Hload'. injection Hload' as <- <-.
  rewrite (constructor_unfold _ _ _ _ Hfb), getApiBaseUrl_run.
  cbn [config firebase]. rewrite Hem, Henv.
  assert (exists u, apiBaseUrl_by_priority (env_var amb "NEXT_PUBLIC_API_URL") (Some e)
                      (env_var amb "NEXT_PUBLIC_FIREBASE_FUNCTIONS_URL") = Some u)
    as (u & ->).
  { unfold apiBaseUrl_by_priority. destruct (taken _); eauto. }
  cbn zeta.
  erewrite validate_development; cbn [config environment firebase valid]; eauto;
    [ | rewrite Hid; apply resolved_projectId_nonempty ].
  edestruct logConfiguration_run as [s3 ->].
  cbn [config firebase]. rewrite Hem.
  destruct (isEmulatorMode _); [ rewrite Hp | ]; cbn [cbind];
    (do 2 eexists; split; [ reflexivity | ];
     cbn [config environment firebase api_baseUrl]; auto).
Qed.

Lemma development_getInstance amb s e s1 p :
  getEnvironment amb = development ->
  instance s = None ->
  loadEmulatorConfig amb None (initial_log s) = (Normal e, s1) ->
  to_string (port (firestore e)) = Normal p ->
  exists c s', getInstance amb s = (Normal c, s') /\ getEmulatorConfig c = Some e.
Proof.
  intros Henv Hs Hload Hp.
  destruct (constructor_development _ _ _ _ _ Henv Hload Hp)
    as (c & s' & Hrun & _ & _ & Hem).
  rewrite (getInstance_empty _ _ Hs), Hrun. cbn [commit]. eauto.
Qed.

(** Whatever project id is resolved, the functions URL of a constructed
    service names the placeholder: the loaders read [this.config] before
    the constructor has assigned it. *)
Lemma constructed_baseUrl_placeholder amb s c s' e :
  constructor amb s = (Normal c, s') ->
  emulators (firebase (config c)) = Some e ->
  exists p,
    to_string (port (functions e)) = Normal p /\
    baseUrl (functions e) = "http://localhost:" +:+ p +:+ "/demo-project/us-central1".
Proof.
  intros Hrun He.
  destruct (constructor_success _ _ _ _ Hrun) as (_ & _ & _ & _ & Hem & _).
  destruct (getEnvironment amb); try congruence.
  destruct Hem as (e' & s1 & He' & Hload).
  assert (e' = e) as -> by congruence.
  destruct (loadEmulatorConfig_cases amb None (initial_log s))
    as (e2 & s2 & Hload2 & Hcases).
  assert (e2 = e) as -> by congruence.
  destruct Hcases as [-> | (content & sec & _ & _ & _ & Hfile)].
  - exists "5001". split; reflexivity.
  - apply emulators_from_file_baseUrl in Hfile. exact Hfile.
Qed.

(** ** The claims *)

(** C1 (fails on the code).  The claim: with a project id override [P],
    the functions entry's [baseUrl] is [http://localhost:<port>/P/us-central1].
    The code, run with [NEXT_PUBLIC_FIREBASE_PROJECT_ID=my-app] in
    development and no [firebase.json]: the resolved project id is [my-app],
    yet the functions [baseUrl], and the API URL derived from it, name the
    placeholder [demo-project]. *)
Theorem functions_baseUrl_ignores_project_override :
  exists c s' e,
    getInstance project_override fresh = (Normal c, s') /\
    projectId (getFirebaseConfig c) = "my-app" /\
    getEmulatorConfig c = Some e /\
    port (functions e) = JInt 5001 /\
    baseUrl (functions e) = "http://localhost:5001/demo-project/us-central1" /\
    baseUrl (functions e) <> "http://localhost:5001/my-app/us-central1" /\
    getApiUrl c = "http://localhost:5001/demo-project/us-central1".
Proof.
  do 3 eexists. split; [ vm_compute; reflexivity | ].
  repeat (split; [ reflexivity | ]). split; [ discriminate | reflexivity ].
Qed.

(** C2.  Construction is atomic with respect to the singleton: when the
    constructor throws, whatever the error, [getInstance()] propagates it
    and leaves [ConfigService.instance] unset; the next [getInstance()],
    under any ambient signals, runs the constructor again, and its outcome
    is the one a fresh process would get. *)
Theorem failed_construction_is_not_cached amb s e s' :
  instance s = None ->
  constructor amb s = (Abrupt e, s') ->
  getInstance amb s = (Abrupt e, s') /\
  instance s' = None /\
  forall amb',
    getInstance amb' s' = commit (constructor amb' s') /\
    fst (constructor amb' s') = fst (constructor amb' fresh).
Proof.
  intros Hs Hrun.
  assert (instance s' = None) as Hs'.
  { pose proof (keeps_constructor amb s) as Hk. rewrite Hrun in Hk. cbn in Hk.
    congruence. }
  split; [ | split; [ exact Hs' | ] ].
  - rewrite (getInstance_empty _ _ Hs), Hrun. reflexivity.
  - intros amb'. split.
    + apply getInstance_empty, Hs'.
    + apply blind_constructor.
Qed.

Lemma failed_construction_is_not_cached_witness :
  (instance fresh = None /\
   constructor production_unconfigured fresh
   = (Abrupt api_url_error, after_failed_attempt) /\
   getInstance production_unconfigured fresh
   = (Abrupt api_url_error, after_failed_attempt) /\
   instance after_failed_attempt = None /\
   forall amb',
     getInstance amb' after_failed_attempt
     = commit (constructor amb' after_failed_attempt) /\
     fst (constructor amb' after_failed_attempt) = fst (constructor amb' fresh)) /\
  (constructor production_without_credentials fresh
   = (Abrupt missing_credentials_error, after_failed_attempt) /\
   getInstance production_without_credentials fresh
   = (Abrupt missing_credentials_error, after_failed_attempt)).
Proof.
  assert (Hurl : constructor production_unconfigured fresh
                 = (Abrupt api_url_error, after_failed_attempt))
    by (vm_compute; reflexivity).
  assert (Hval : constructor production_without_credentials fresh
                 = (Abrupt missing_credentials_error, after_failed_attempt))
    by (vm_compute; reflexivity).
  split.
  - split; [ reflexivity | ]. split; [ exact Hurl | ].
    exact (failed_construction_is_not_cached production_unconfigured fresh
             api_url_error after_failed_attempt eq_refl Hurl).
  - split; [ exact Hval | ].
    exact (proj1 (failed_construction_is_not_cached production_without_credentials
                    fresh missing_credentials_error after_failed_attempt
                    eq_refl Hval)).
Defined.

(** C3.  [getInstance()] is idempotent: when a call returns a service, a
    second call with no [resetInstance()] in between returns the same
    service and leaves the process state, console included, as it was: no
    resolution is run again, whatever the ambient signals have become. *)
Theorem getInstance_idempotent amb1 amb2 s c s' :
  getInstance amb1 s = (Normal c, s') ->
  getInstance amb2 s' = (Normal c, s').
Proof.
  intros Hrun. apply getInstance_cached.
  exact (getInstance_sets_instance _ _ _ _ Hrun).
Qed.

Lemma getInstance_idempotent_witness :
  exists c s',
    getInstance project_override fresh = (Normal c, s') /\
    getInstance production_unconfigured s' = (Normal c, s').
Proof.
  destruct (getInstance project_override fresh) as [[c | e] s'] eqn:Hrun;
    [ | vm_compute in Hrun; discriminate ].
  exists c, s'. split; [ reflexivity | ].
  exact (getInstance_idempotent project_override production_unconfigured fresh c s' Hrun).
Defined.

(** C4.  [apiBaseUrl] follows a strict three-level priority: the explicit
    override [NEXT_PUBLIC_API_URL] when present; otherwise the functions
    [baseUrl] of the local endpoints when they were resolved; otherwise
    [NEXT_PUBLIC_FIREBASE_FUNCTIONS_URL] when present; and when all three
    are absent [getApiBaseUrl] throws the configuration error, so that
    construction (where local endpoints are resolved exactly in
    development) and [getInstance()] throw it and return no object.  Every
    constructed service holds the URL the priority order gives. *)
Theorem apiBaseUrl_three_level_priority amb :
  (forall this s,
     getApiBaseUrl amb this s =
       (match apiBaseUrl_by_priority (env_var amb "NEXT_PUBLIC_API_URL")
                (emulators (firebase (config this)))
                (env_var amb "NEXT_PUBLIC_FIREBASE_FUNCTIONS_URL") with
        | Some u => Normal u
        | None => Abrupt api_url_error
        end, s)) /\
  (forall s c s',
     constructor amb s = (Normal c, s') ->
     apiBaseUrl_by_priority (env_var amb "NEXT_PUBLIC_API_URL")
       (getEmulatorConfig c)
       (env_var amb "NEXT_PUBLIC_FIREBASE_FUNCTIONS_URL") = Some (getApiUrl c)) /\
  (forall s,
     getEnvironment amb <> development ->
     taken (env_var amb "NEXT_PUBLIC_API_URL") = None ->
     taken (env_var amb "NEXT_PUBLIC_FIREBASE_FUNCTIONS_URL") = None ->
     constructor amb s = (Abrupt api_url_error, initial_log s) /\
     (instance s = None ->
      getInstance amb s = (Abrupt api_url_error, initial_log s))).
Proof.
  split; [ | split ].
  - intros this s. apply getApiBaseUrl_run.
  - intros s c s' Hrun.
    destruct (constructor_success _ _ _ _ Hrun) as (_ & _ & _ & _ & _ & Hurl & _).
    exact Hurl.
  - intros s Henv Hapi Hfun.
    assert (constructor amb s = (Abrupt api_url_error, initial_log s)) as Hrun.
    { destruct (loadFirebaseConfig_run amb None (initial_log s))
        as (fb & s1 & Hfb & _ & _ & _ & Hem).
      rewrite (constructor_unfold _ _ _ _ Hfb), getApiBaseUrl_run.
      cbn [config firebase].
      destruct (getEnvironment amb); [ congruence | | ];
        destruct Hem as [-> ->]; unfold apiBaseUrl_by_priority;
        rewrite Hapi, Hfun; reflexivity. }
    split; [ exact Hrun | ].
    intros Hs. rewrite (getInstance_empty _ _ Hs), Hrun. reflexivity.
Qed.

Lemma apiBaseUrl_three_level_priority_witness :
  (getEnvironment production_unconfigured <> development /\
   taken (env_var production_unconfigured "NEXT_PUBLIC_API_URL") = None /\
   taken (env_var production_unconfigured "NEXT_PUBLIC_FIREBASE_FUNCTIONS_URL") = None /\
   getInstance production_unconfigured fresh
   = (Abrupt api_url_error, initial_log fresh)) /\
  (constructor production_configured fresh
   = (Normal (production_settings (Some "key")),
      snd (constructor production_configured fresh)) /\
   apiBaseUrl_by_priority (env_var production_configured "NEXT_PUBLIC_API_URL")
     (getEmulatorConfig (production_settings (Some "key")))
     (env_var production_configured "NEXT_PUBLIC_FIREBASE_FUNCTIONS_URL")
   = Some (getApiUrl (production_settings (Some "key")))).
Proof.
  split.
  - assert (getEnvironment production_unconfigured <> development) as Henv
      by (vm_compute; discriminate).
    assert (taken (env_var production_unconfigured "NEXT_PUBLIC_API_URL") = None)
      as Hapi by (vm_compute; reflexivity).
    assert (taken (env_var production_unconfigured "NEXT_PUBLIC_FIREBASE_FUNCTIONS_URL")
            = None) as Hfun by (vm_compute; reflexivity).
    repeat (split; [ assumption | ]).
    exact (proj2 (proj2 (proj2 (apiBaseUrl_three_level_priority production_unconfigured))
                    fresh Henv Hapi Hfun) eq_refl).
  - assert (constructor production_configured fresh
            = (Normal (production_settings (Some "key")),
               snd (constructor production_configured fresh))) as Hrun
      by (vm_compute; reflexivity).
    split; [ exact Hrun | ].
    exact (proj1 (proj2 (apiBaseUrl_three_level_priority production_configured))
             fresh _ _ Hrun).
Defined.

(** C5.  Production validation: in a production settings state, where
    [apiKey] and [authDomain] are present (non-empty) and [projectId] is
    non-empty, [validate()] returns [valid == true]; where [apiKey] is
    absent (or empty) it returns [valid == false] with an [errors] list
    holding a message that names [apiKey]. *)
Theorem validate_production_rules this :
  environment (config this) = production ->
  (truthy_str (apiKey (firebase (config this))) = true ->
   truthy_str (authDomain (firebase (config this))) = true ->
   projectId (firebase (config this)) <> "" ->
   valid (validate this) = true) /\
  (truthy_str (apiKey (firebase (config this))) = false ->
   valid (validate this) = false /\
   exists errs msg,
     errors (validate this) = Some errs /\ In msg errs /\ names "apiKey" msg = true).
Proof.
  intros Henv. split.
  - intros Hkey Hdom Hid. unfold validate. rewrite Henv, Hkey, Hdom.
    apply String.eqb_neq in Hid. rewrite Hid. reflexivity.
  - intros Hkey. unfold validate. rewrite Henv, Hkey. cbn [Environment_eqb].
    destruct (String.eqb (projectId (firebase (config this))) "");
      destruct (truthy_str (authDomain (firebase (config this))));
      cbn [app length Nat.eqb Nat.ltb Nat.leb valid errors];
      (split; [ reflexivity | ]);
      do 2 eexists; (split; [ reflexivity | ]);
      (split; [ | instantiate (1 := "Firebase apiKey required for production");
                  reflexivity ]);
      cbn; tauto.
Qed.

Lemma validate_production_rules_witness :
  valid (validate (production_settings (Some "key"))) = true /\
  valid (validate (production_settings None)) = false /\
  errors (validate (production_settings None))
  = Some ["Firebase apiKey required for production"].
Proof.
  split; [ | split ].
  - apply (proj1 (validate_production_rules (production_settings (Some "key")) eq_refl));
      [ reflexivity | reflexivity | discriminate ].
  - apply (proj2 (validate_production_rules (production_settings None) eq_refl)).
    reflexivity.
  - reflexivity.
Defined.

(** C6.  Development endpoint merging.  In development, starting without
    a cached instance: when [firebase.json] is absent, [getInstance()]
    returns a service whose [getEmulatorConfig()] is non-null with every
    port at its fixed default (auth 9099, firestore 8080, functions 5001,
    storage 9199, hosting 5000); and when the runtime can read the file and
    its [emulators] section supplies a port, a non-zero integer [p], for
    one service only, that service gets [p] while every other service
    keeps its fixed default. *)
Theorem development_endpoint_merging amb s :
  getEnvironment amb = development ->
  instance s = None ->
  (firebase_json amb = FileAbsent ->
   exists c s' e,
     getInstance amb s = (Normal c, s') /\
     getEmulatorConfig c = Some e /\
     port (auth e) = JInt 9099 /\
     port (firestore e) = JInt 8080 /\
     port (functions e) = JInt 5001 /\
     port (storage e) = JInt 9199 /\
     port (hosting e) = JInt 5000) /\
  (forall content sec svc p,
     isNode amb = true ->
     firebase_json amb = FileParsed content ->
     section_of content = Some sec ->
     file_port sec svc = Some (JInt p) ->
     p <> 0%Z ->
     (forall other, other <> svc -> file_port sec other = None) ->
     exists c s' e,
       getInstance amb s = (Normal c, s') /\
       getEmulatorConfig c = Some e /\
       port_of e svc = JInt p /\
       forall other, other <> svc -> port_of e other = JInt (default_port other)).
Proof.
  intros Henv Hs. split.
  - intros Hfile.
    destruct (loadEmulatorConfig_degraded amb None (initial_log s)) as [s1 Hload].
    { right. rewrite Hfile. exact I. }
    destruct (development_getInstance _ _ _ _ "8080" Henv Hs Hload eq_refl)
      as (c & s' & Hrun & Hem).
    exists c, s', (getDefaultEmulatorConfig None). repeat split; assumption.
  - intros content sec svc p Hnode Hfile Hsec Hport Hp Hothers.
    assert (Hresolve : forall x, or_default (file_port sec x) (default_port x)
              = if decide (x = svc) then JInt p else JInt (default_port x)).
    { intros x. destruct (decide (x = svc)) as [-> | Hne].
      - rewrite Hport. unfold or_default, truthy.
        apply Z.eqb_neq in Hp. rewrite Hp. reflexivity.
      - rewrite (Hothers x Hne). reflexivity. }
    assert (exists e, emulators_from_file sec None = Normal e) as [e He].
    { unfold emulators_from_file, service_port.
      change (opt_get (get sec "auth") "port") with (file_port sec Auth).
      change (opt_get (get sec "functions") "port") with (file_port sec Functions).
      change 9099%Z with (default_port Auth).
      change 5001%Z with (default_port Functions).
      rewrite !Hresolve.
      destruct (decide (Auth = svc)), (decide (Functions = svc));
        cbn [to_string cbind]; eauto. }
    pose proof (emulators_from_file_ports _ _ _ He) as Hports.
    destruct (loadEmulatorConfig_from_file amb None (initial_log s) content sec e
                Hnode Hfile Hsec He) as [s1 Hload].
    assert (exists q, to_string (port (firestore e)) = Normal q) as [q Hq].
    { change (port (firestore e)) with (port_of e Firestore).
      rewrite Hports, Hresolve. destruct (decide (Firestore = svc)); cbn; eauto. }
    destruct (development_getInstance _ _ _ _ _ Henv Hs Hload Hq)
      as (c & s' & Hrun & Hem).
    exists c, s', e. split; [ exact Hrun | ]. split; [ exact Hem | ]. split.
    + rewrite Hports, Hresolve. destruct (decide (svc = svc)); congruence.
    + intros other Hne. rewrite Hports, Hresolve.
      destruct (decide (other = svc)); congruence.
Qed.

Lemma development_endpoint_merging_witness :
  (exists c s' e,
     getInstance development_unset fresh = (Normal c, s') /\
     getEmulatorConfig c = Some e /\
     port (auth e) = JInt 9099 /\
     port (firestore e) = JInt 8080 /\
     port (functions e) = JInt 5001 /\
     port (storage e) = JInt 9199 /\
     port (hosting e) = JInt 5000) /\
  (exists c s' e,
     getInstance firestore_port_9000 fresh = (Normal c, s') /\
     getEmulatorConfig c = Some e /\
     port_of e Firestore = JInt 9000 /\
     forall other, other <> Firestore -> port_of e other = JInt (default_port other)).
Proof.
  split.
  - apply (proj1 (development_endpoint_merging development_unset fresh
                    eq_refl eq_refl)).
    reflexivity.
  - apply (proj2 (development_endpoint_merging firestore_port_9000 fresh
                    eq_refl eq_refl)
             firestore_9000 firestore_9000_section Firestore 9000%Z).
    + reflexivity.
    + reflexivity.
    + vm_compute. reflexivity.
    + vm_compute. reflexivity.
    + lia.
    + intros [] Hne; solve [ congruence | vm_compute; reflexivity ].
Defined.

(** C7 as stated does not hold: [getEnvironment()] does not read the cached
    settings.  A service constructed in development, asked after
    [NODE_ENV] has become [production], answers [production], while the
    cached [environment] is still [development]. *)
Lemma getEnvironment_follows_later_signals :
  ~ (forall amb amb' s c s',
       getInstance amb s = (Normal c, s') ->
       getEnvironment amb' = environment (config c)).
Proof.
  intros H.
  destruct (getInstance development_unset fresh) as [[c | e] s'] eqn:Hrun;
    [ | vm_compute in Hrun; discriminate ].
  specialize (H development_unset production_unconfigured fresh c s' Hrun).
  vm_compute in Hrun. injection Hrun as <- _.
  vm_compute in H. discriminate.
Qed.

(** C7, amended.  The environment stored in the settings object is derived
    once, at construction, from the signals of that moment, and
    [isProduction()] reads that stored value; [getEnvironment()] derives the
    environment again from the ambient signals of each call, so it returns
    the construction-time value whenever [NEXT_PUBLIC_APP_ENV] and
    [NODE_ENV] are as they were at construction. *)
Theorem environment_cached_at_construction amb s c s' :
  constructor amb s = (Normal c, s') ->
  environment (config c) = getEnvironment amb /\
  isProduction c = Environment_eqb (getEnvironment amb) production /\
  (forall amb',
     env_var amb' "NEXT_PUBLIC_APP_ENV" = env_var amb "NEXT_PUBLIC_APP_ENV" ->
     env_var amb' "NODE_ENV" = env_var amb "NODE_ENV" ->
     getEnvironment amb' = environment (config c)).
Proof.
  intros Hrun.
  destruct (constructor_success _ _ _ _ Hrun) as (Henv & _).
  split; [ exact Henv | ]. split.
  - unfold isProduction. rewrite Henv. reflexivity.
  - intros amb' Happ Hnode. rewrite Henv. unfold getEnvironment.
    rewrite Happ, Hnode. reflexivity.
Qed.

Lemma environment_cached_at_construction_witness :
  constructor production_configured fresh
  = (Normal (production_settings (Some "key")),
     snd (constructor production_configured fresh)) /\
  environment (config (production_settings (Some "key")))
  = getEnvironment production_configured /\
  isProduction (production_settings (Some "key")) = true /\
  getEnvironment production_unconfigured
  = environment (config (production_settings (Some "key"))).
Proof.
  assert (constructor production_configured fresh
          = (Normal (production_settings (Some "key")),
             snd (constructor production_configured fresh))) as Hrun
    by (vm_compute; reflexivity).
  destruct (environment_cached_at_construction production_configured fresh _ _ Hrun)
    as (Henv & Hprod & Hlater).
  split; [ exact Hrun | ]. split; [ exact Henv | ]. split; [ exact Hprod | ].
  apply Hlater; reflexivity.
Defined.

(** C8 as stated does not hold: a port that is present but not an integer
    is not replaced by the default.  With
    [{"emulators": {"firestore": {"port": "abc"}}}] the resolved firestore
    port is the string ["abc"], not 8080. *)
Lemma non_integer_port_is_kept :
  ~ (forall amb this_config s content sec svc p e s',
       isNode amb = true ->
       firebase_json amb = FileParsed content ->
       section_of content = Some sec ->
       file_port sec svc = Some p ->
       is_integer p = false ->
       loadEmulatorConfig amb this_config s = (Normal e, s') ->
       port_of e svc = JInt (default_port svc)).
Proof.
  intros H.
  destruct (loadEmulatorConfig firestore_port_text None fresh)
    as [[e | err] s'] eqn:Hrun; [ | vm_compute in Hrun; discriminate ].
  assert (port_of e Firestore = JInt (default_port Firestore)) as Habs.
  { apply (H firestore_port_text None fresh firestore_abc firestore_abc_section
             Firestore (JString "abc") e s');
      first [ exact Hrun | vm_compute; reflexivity ]. }
  vm_compute in Hrun. injection Hrun as <- _.
  discriminate Habs.
Qed.

(** C8, amended.  A port present in the [emulators] section falls back to
    the service's fixed default when it is falsy ([0], [null], [false], the
    empty string), integer or not; a truthy port, integer or not, is kept as
    that service's resolved port whenever the auth and functions ports can
    be written into their URLs. *)
Theorem port_fallback_is_by_truthiness amb this_config s content sec :
  isNode amb = true ->
  firebase_json amb = FileParsed content ->
  section_of content = Some sec ->
  exists e s',
    loadEmulatorConfig amb this_config s = (Normal e, s') /\
    (forall svc p,
       file_port sec svc = Some p ->
       truthy (Some p) = false ->
       port_of e svc = JInt (default_port svc)) /\
    (forall a f,
       to_string (service_port sec "auth" 9099) = Normal a ->
       to_string (service_port sec "functions" 5001) = Normal f ->
       forall svc p,
         file_port sec svc = Some p ->
         truthy (Some p) = true ->
         port_of e svc = p).
Proof.
  intros Hnode Hfile Hsec.
  assert (Hfrom : forall e, emulators_from_file sec this_config = Normal e ->
            forall svc p, file_port sec svc = Some p ->
              port_of e svc = if truthy (Some p) then p else JInt (default_port svc)).
  { intros e He svc p Hp. rewrite (emulators_from_file_ports _ _ _ He), Hp.
    reflexivity. }
  destruct (loadEmulatorConfig_cases amb this_config s) as (e & s' & Hrun & Hcases).
  exists e, s'. split; [ exact Hrun | ]. split.
  - intros svc p Hp Hfalsy.
    destruct Hcases as [-> | (content' & sec' & _ & Hfile' & Hsec' & He)].
    + destruct svc; reflexivity.
    + assert (sec' = sec) as -> by congruence.
      rewrite (Hfrom _ He _ _ Hp), Hfalsy. reflexivity.
  - intros a f Ha Hf svc p Hp Htruthy.
    assert (exists e0, emulators_from_file sec this_config = Normal e0) as [e0 He0].
    { unfold emulators_from_file. rewrite Ha, Hf. cbn [cbind]. eauto. }
    destruct (loadEmulatorConfig_from_file amb this_config s content sec e0
                Hnode Hfile Hsec He0) as [s0 Hrun0].
    assert (e = e0) as -> by congruence.
    rewrite (Hfrom _ He0 _ _ Hp), Htruthy. reflexivity.
Qed.

Lemma port_fallback_is_by_truthiness_witness :
  exists e s',
    loadEmulatorConfig firestore_port_text None fresh = (Normal e, s') /\
    port_of e Firestore = JString "abc".
Proof.
  assert (section_of firestore_abc = Some firestore_abc_section) as Hsec
    by (vm_compute; reflexivity).
  destruct (port_fallback_is_by_truthiness firestore_port_text None fresh firestore_abc
              firestore_abc_section eq_refl eq_refl Hsec)
    as (e & s' & Hrun & _ & Hkept).
  exists e, s'. split; [ exact Hrun | ].
  apply (Hkept "9099" "5001");
    solve [ vm_compute; reflexivity ].
Defined.

(** C9 (fails on the code).  The claim: loading the local endpoints never
    raises, and only validation failure and the missing API URL abort
    construction.  The code, run in development with
    [{"emulators": {"firestore": {"port": {"toString": 1}}}}]: the loader
    returns normally and keeps the object as the firestore port; the
    summary log of the constructor then interpolates that port, the
    conversion throws, and construction aborts with a [TypeError], which is
    neither of the two configuration errors. *)
Theorem unprintable_port_aborts_construction :
  (exists e s',
     loadEmulatorConfig firestore_port_unprintable None fresh = (Normal e, s') /\
     port (firestore e) = JObject {["toString" := JInt 1]}) /\
  getEnvironment firestore_port_unprintable = development /\
  (exists s', constructor firestore_port_unprintable fresh = (Abrupt TypeError, s')) /\
  (exists s',
     getInstance firestore_port_unprintable fresh = (Abrupt TypeError, s') /\
     instance s' = None).
Proof.
  split; [ | split; [ | split ] ].
  - destruct (loadEmulatorConfig_never_raises firestore_port_unprintable None fresh)
      as (e & s' & Hrun & _).
    exists e, s'. split; [ exact Hrun | ].
    vm_compute in Hrun. injection Hrun as <- _. reflexivity.
  - reflexivity.
  - eexists. vm_compute. reflexivity.
  - eexists. split; [ vm_compute; reflexivity | reflexivity ].
Qed.

(** C10.  Every successfully constructed settings object whose environment
    is production has no local endpoints: [emulators] is absent,
    [getEmulatorConfig()] is null and [isEmulatorMode()] is false, although
    [validate()] does not check it. *)
Theorem production_has_no_local_endpoints amb s c s' :
  constructor amb s = (Normal c, s') ->
  environment (config c) = production ->
  emulators (firebase (config c)) = None /\
  getEmulatorConfig c = None /\
  isEmulatorMode c = false.
Proof.
  intros Hrun Hprod.
  destruct (constructor_success _ _ _ _ Hrun) as (Henv & _ & _ & _ & Hem & _).
  rewrite <- Henv, Hprod in Hem.
  unfold getEmulatorConfig, isEmulatorMode. rewrite Hem, Hprod. auto.
Qed.

Lemma production_has_no_local_endpoints_witness :
  constructor production_configured fresh
  = (Normal (production_settings (Some "key")),
     snd (constructor production_configured fresh)) /\
  environment (config (production_settings (Some "key"))) = production /\
  emulators (firebase (config (production_settings (Some "key")))) = None /\
  getEmulatorConfig (production_settings (Some "key")) = None /\
  isEmulatorMode (production_settings (Some "key")) = false.
Proof.
  assert (constructor production_configured fresh
          = (Normal (production_settings (Some "key")),
             snd (constructor production_configured fresh))) as Hrun
    by (vm_compute; reflexivity).
  split; [ exact Hrun | ]. split; [ reflexivity | ].
  exact (production_has_no_local_endpoints production_configured fresh _ _ Hrun eq_refl).
Defined.

(** ** More on [validate] *)

Lemma validate_outside_development this :
  environment (config this) <> development ->
  (valid (validate this) = true <->
   projectId (firebase (config this)) <> "" /\
   (environment (config this) = production ->
    truthy_str (apiKey (firebase (config this))) = true /\
    truthy_str (authDomain (firebase (config this))) = true)).
Proof.
  intros Hdev. unfold validate.
  destruct (String.eqb_spec (projectId (firebase (config this))) "") as [Hid | Hid];
    destruct (environment (config this)); try congruence;
    destruct (truthy_str (apiKey (firebase (config this))));
    destruct (truthy_str (authDomain (firebase (config this))));
    cbn; split; intros H; try discriminate; try reflexivity;
    try (repeat split; intros; try discriminate; try congruence; fail);
    try (destruct H as (H1 & H3); first
           [ congruence | destruct (H3 eq_refl); discriminate ]).
Qed.

Lemma validate_valid_no_errors this :
  valid (validate this) = true -> validate this = {| valid := true; errors := None |}.
Proof.
  unfold validate. cbn [valid].
  destruct (length _) eqn:Hlen; [ reflexivity | discriminate ].
Qed.

Lemma reported_by_rule this :
  reported this =
    (rule_message (String.eqb (projectId (firebase (config this))) "")
       "Firebase projectId is required" ++
     rule_message (Environment_eqb (environment (config this)) development
                   && negb (bool_decide (is_Some (emulators (firebase (config this))))))
       "Emulator configuration missing in development mode" ++
     rule_message (Environment_eqb (environment (config this)) production
                   && negb (truthy_str (apiKey (firebase (config this)))))
       "Firebase apiKey required for production" ++
     rule_message (Environment_eqb (environment (config this)) production
                   && negb (truthy_str (authDomain (firebase (config this)))))
       "Firebase authDomain required for production")%list.
Proof.
  unfold reported, validate.
  destruct (String.eqb (projectId (firebase (config this))) "");
    destruct (environment (config this));
    destruct (emulators (firebase (config this)));
    destruct (truthy_str (apiKey (firebase (config this))));
    destruct (truthy_str (authDomain (firebase (config this))));
    reflexivity.
Qed.

Lemma in_rule_message violated message m :
  In m (rule_message violated message) <-> violated = true /\ m = message.
Proof.
  destruct violated; cbn; split; intros H.
  - destruct H as [<- | []]. auto.
  - left. symmetry. apply H.
  - destruct H.
  - destruct H. discriminate.
Qed.

(** X1.  [validate()] answers valid exactly when the project id is
    non-empty, the emulator configuration is there if the environment is
    development, and [apiKey] and [authDomain] are non-empty if it is
    production; staging asks for the project id alone. *)
Theorem validate_valid_iff this :
  valid (validate this) = true <->
  projectId (firebase (config this)) <> "" /\
  (environment (config this) = development ->
   emulators (firebase (config this)) <> None) /\
  (environment (config this) = production ->
   truthy_str (apiKey (firebase (config this))) = true /\
   truthy_str (authDomain (firebase (config this))) = true).
Proof.
  unfold validate.
  destruct (String.eqb_spec (projectId (firebase (config this))) "") as [Hid | Hid];
    destruct (environment (config this));
    destruct (emulators (firebase (config this)));
    destruct (truthy_str (apiKey (firebase (config this))));
    destruct (truthy_str (authDomain (firebase (config this))));
    cbn; split; intros H; try discriminate; try reflexivity;
    try (repeat split; intros; try discriminate; try congruence; fail);
    try (destruct H as (H1 & H2 & H3); first
           [ congruence
           | exfalso; apply H2; reflexivity
           | destruct (H3 eq_refl); discriminate ]).
Qed.

(** X2.  [validate()] reports every violated rule, not only the first:
    each of its four messages is in the list exactly when its rule is
    violated, the list holds nothing else, and [valid] is true exactly when
    the list is empty. *)
Theorem validate_reports_every_failed_rule this :
  (In "Firebase projectId is required" (reported this) <->
   projectId (firebase (config this)) = "") /\
  (In "Emulator configuration missing in development mode" (reported this) <->
   environment (config this) = development /\
   emulators (firebase (config this)) = None) /\
  (In "Firebase apiKey required for production" (reported this) <->
   environment (config this) = production /\
   truthy_str (apiKey (firebase (config this))) = false) /\
  (In "Firebase authDomain required for production" (reported this) <->
   environment (config this) = production /\
   truthy_str (authDomain (firebase (config this))) = false) /\
  (forall msg, In msg (reported this) ->
     msg = "Firebase projectId is required" \/
     msg = "Emulator configuration missing in development mode" \/
     msg = "Firebase apiKey required for production" \/
     msg = "Firebase authDomain required for production") /\
  (valid (validate this) = true <-> reported this = []).
Proof.
  split; [ | split; [ | split; [ | split; [ | split ] ] ] ].
  1-4: rewrite reported_by_rule, !in_app_iff, !in_rule_message.
  - destruct (String.eqb_spec (projectId (firebase (config this))) "");
      intuition (discriminate || congruence).
  - destruct (environment (config this)), (emulators (firebase (config this)));
      cbn; intuition (discriminate || congruence).
  - destruct (environment (config this)),
      (truthy_str (apiKey (firebase (config this))));
      cbn; intuition (discriminate || congruence).
  - destruct (environment (config this)),
      (truthy_str (authDomain (firebase (config this))));
      cbn; intuition (discriminate || congruence).
  - intros msg. rewrite reported_by_rule, !in_app_iff, !in_rule_message. tauto.
  - unfold reported, validate. cbv zeta. cbn [valid errors].
    match goal with |- context [length ?l] => generalize l end.
    intros [ | m l]; cbn; split; intros H; try reflexivity; discriminate.
Qed.

(** X3.  Whatever construction returns passes its own validation:
    [validate()] on a constructed service is valid, with no errors. *)
Theorem constructed_service_validates amb s c s' :
  constructor amb s = (Normal c, s') ->
  validate c = {| valid := true; errors := None |}.
Proof.
  intros Hrun. apply validate_valid_no_errors.
  destruct (constructor_success _ _ _ _ Hrun) as (_ & _ & _ & _ & _ & _ & Hv).
  exact Hv.
Qed.

Lemma constructed_service_validates_witness :
  constructor production_configured fresh
  = (Normal (production_settings (Some "key")),
     snd (constructor production_configured fresh)) /\
  validate (production_settings (Some "key")) = {| valid := true; errors := None |}.
Proof.
  assert (constructor production_configured fresh
          = (Normal (production_settings (Some "key")),
             snd (constructor production_configured fresh))) as Hrun
    by (vm_compute; reflexivity).
  split; [ exact Hrun | ].
  exact (constructed_service_validates production_configured fresh _ _ Hrun).
Defined.

(** ** More on construction *)

(** In development, construction ends as the summary's rendering of the
    firestore port ends. *)
Lemma constructor_development_outcome amb s e s1 :
  getEnvironment amb = development ->
  loadEmulatorConfig amb None (initial_log s) = (Normal e, s1) ->
  exists c s',
    environment (config c) = development /\
    emulators (firebase (config c)) = Some e /\
    constructor amb s = (cbind (to_string (port (firestore e))) (fun _ => Normal c), s').
Proof.
  intros Henv Hload.
  destruct (loadFirebaseConfig_run amb None (initial_log s))
    as (fb & s1' & Hfb & Hid & _ & _ & Hem).
  rewrite Henv in Hem. destruct Hem as (e' & Hem & Hload').
  rewrite Hload in Hload'. injection Hload' as <- <-.
  rewrite (constructor_unfold _ _ _ _ Hfb), getApiBaseUrl_run.
  cbn [config firebase]. rewrite Hem, Henv.
  assert (exists u, apiBaseUrl_by_priority (env_var amb "NEXT_PUBLIC_API_URL") (Some e)
                      (env_var amb "NEXT_PUBLIC_FIREBASE_FUNCTIONS_URL") = Some u)
    as (u & ->).
  { unfold apiBaseUrl_by_priority. destruct (taken _); eauto. }
  cbn zeta.
  erewrite validate_development; cbn [config environment firebase valid]; eauto;
    [ | rewrite Hid; apply resolved_projectId_nonempty ].
  edestruct logConfiguration_run as [s3 ->].
  cbn [config firebase]. rewrite Hem.
  unfold isEmulatorMode. cbn [config environment firebase Environment_eqb andb].
  rewrite Hem.
  do 2 eexists. split; [ | split ];
    [ | | destruct (to_string (port (firestore e))); cbn [cbind]; reflexivity ];
    cbn [config environment firebase]; auto.
Qed.

(** X4.  In development, whenever [firebase.json] gives no endpoint
    section (no file-system access, no file, an unreadable or unparseable
    file, JSON [null], no truthy [emulators] key), [getInstance()] succeeds:
    the endpoints are the built-in defaults, the service is in emulator
    mode, and the API URL is [NEXT_PUBLIC_API_URL] if non-empty, else the
    default functions URL. *)
Theorem development_degraded_gives_defaults amb s :
  getEnvironment amb = development ->
  degraded amb ->
  instance s = None ->
  exists c s',
    getInstance amb s = (Normal c, s') /\
    getEmulatorConfig c = Some (getDefaultEmulatorConfig None) /\
    isEmulatorMode c = true /\
    getApiUrl c = or_literal (env_var amb "NEXT_PUBLIC_API_URL")
                    "http://localhost:5001/demo-project/us-central1".
Proof.
  intros Henv Hd Hs.
  destruct (loadEmulatorConfig_degraded amb None (initial_log s) Hd) as [s1 Hload].
  destruct (constructor_development _ _ _ _ "8080" Henv Hload eq_refl)
    as (c & s' & Hrun & Hdev & _ & Hem).
  rewrite (getInstance_empty _ _ Hs), Hrun. cbn [commit].
  do 2 eexists. split; [ reflexivity | ]. split; [ exact Hem | ]. split.
  - unfold isEmulatorMode. rewrite Hdev, Hem. reflexivity.
  - destruct (constructor_success _ _ _ _ Hrun) as (_ & _ & _ & _ & _ & Hurl & _).
    rewrite Hem in Hurl. unfold apiBaseUrl_by_priority in Hurl.
    unfold getApiUrl, or_literal.
    destruct (taken (env_var amb "NEXT_PUBLIC_API_URL"));
      injection Hurl as <-; reflexivity.
Qed.

Lemma development_degraded_gives_defaults_witness :
  getEnvironment development_unset = development /\
  degraded development_unset /\
  exists c s',
    getInstance development_unset fresh = (Normal c, s') /\
    getEmulatorConfig c = Some (getDefaultEmulatorConfig None) /\
    isEmulatorMode c = true /\
    getApiUrl c = "http://localhost:5001/demo-project/us-central1".
Proof.
  assert (degraded development_unset) as Hd by (right; exact I).
  split; [ reflexivity | ]. split; [ exact Hd | ].
  exact (development_degraded_gives_defaults development_unset fresh eq_refl Hd eq_refl).
Defined.

(** X5.  In development, construction never throws a configuration error:
    if it aborts, the error is a [TypeError], and it comes from the summary
    log failing to render the firestore port the loader returned. *)
Theorem development_aborts_only_in_the_summary amb s err s' :
  getEnvironment amb = development ->
  constructor amb s = (Abrupt err, s') ->
  err = TypeError /\
  exists e s1,
    loadEmulatorConfig amb None (initial_log s) = (Normal e, s1) /\
    to_string (port (firestore e)) = Abrupt TypeError.
Proof.
  intros Henv Hrun.
  destruct (loadEmulatorConfig_cases amb None (initial_log s)) as (e & s1 & Hload & _).
  destruct (constructor_development_outcome _ _ _ _ Henv Hload)
    as (c & s2 & _ & _ & Hout).
  rewrite Hout in Hrun.
  destruct (to_string (port (firestore e))) as [p | terr] eqn:Hp; cbn [cbind] in Hrun;
    [ discriminate | ].
  injection Hrun as <- _.
  pose proof (to_string_abrupt _ _ Hp) as ->. eauto.
Qed.

Lemma development_aborts_only_in_the_summary_witness :
  getEnvironment firestore_port_unprintable = development /\
  constructor firestore_port_unprintable fresh
  = (Abrupt TypeError, snd (constructor firestore_port_unprintable fresh)) /\
  exists e s1,
    loadEmulatorConfig firestore_port_unprintable None (initial_log fresh)
    = (Normal e, s1) /\
    to_string (port (firestore e)) = Abrupt TypeError.
Proof.
  assert (constructor firestore_port_unprintable fresh
          = (Abrupt TypeError, snd (constructor firestore_port_unprintable fresh)))
    as Hrun by (vm_compute; reflexivity).
  split; [ reflexivity | ]. split; [ exact Hrun | ].
  exact (proj2 (development_aborts_only_in_the_summary firestore_port_unprintable
                  fresh TypeError _ eq_refl Hrun)).
Defined.

(** X6.  Outside development, construction succeeds exactly when an API
    URL source is present ([NEXT_PUBLIC_API_URL] or
    [NEXT_PUBLIC_FIREBASE_FUNCTIONS_URL], non-empty) and, in production,
    [apiKey] and [authDomain] are non-empty; staging needs the URL only. *)
Theorem construction_outside_development amb s :
  getEnvironment amb <> development ->
  ((exists c s', constructor amb s = (Normal c, s')) <->
   (taken (env_var amb "NEXT_PUBLIC_API_URL") <> None \/
    taken (env_var amb "NEXT_PUBLIC_FIREBASE_FUNCTIONS_URL") <> None) /\
   (getEnvironment amb = production ->
    truthy_str (env_var amb "NEXT_PUBLIC_FIREBASE_API_KEY") = true /\
    truthy_str (env_var amb "NEXT_PUBLIC_FIREBASE_AUTH_DOMAIN") = true)).
Proof.
  intros Henv. split.
  - intros (c & s' & Hrun).
    destruct (constructor_success _ _ _ _ Hrun)
      as (He & _ & Hkey & Hdom & Hem & Hurl & Hv).
    assert (emulators (firebase (config c)) = None) as Hnone
      by (destruct (getEnvironment amb); [ congruence | exact Hem | exact Hem ]).
    split.
    + rewrite Hnone in Hurl. unfold apiBaseUrl_by_priority in Hurl.
      destruct (taken (env_var amb "NEXT_PUBLIC_API_URL")); [ left; discriminate | ].
      right. congruence.
    + intros Hprod. apply validate_outside_development in Hv; [ | congruence ].
      destruct Hv as (_ & Hcreds). rewrite He, Hkey, Hdom in Hcreds. auto.
  - intros [Hsrc Hcreds].
    destruct (loadFirebaseConfig_run amb None (initial_log s))
      as (fb & s1 & Hfb & Hid & Hkey & Hdom & Hem).
    assert (emulators fb = None) as Hnone
      by (destruct (getEnvironment amb); [ congruence | apply Hem | apply Hem ]).
    rewrite (constructor_unfold _ _ _ _ Hfb), getApiBaseUrl_run.
    cbn [config firebase]. rewrite Hnone.
    destruct (apiBaseUrl_by_priority _ None _) as [u | ] eqn:Hu.
    + cbn zeta.
      assert (valid (validate {| config := {| environment := getEnvironment amb;
                firebase := fb; api_baseUrl := u |} |}) = true) as ->.
      { apply validate_outside_development; cbn [config environment firebase].
        - exact Henv.
        - rewrite Hid, Hkey, Hdom. split; [ apply resolved_projectId_nonempty | ].
          exact Hcreds. }
      edestruct logConfiguration_run as [s3 ->].
      cbn [config firebase]. rewrite Hnone. eauto.
    + exfalso. unfold apiBaseUrl_by_priority in Hu.
      destruct (taken (env_var amb "NEXT_PUBLIC_API_URL")); [ discriminate | ].
      destruct Hsrc as [Hsrc | Hsrc]; congruence.
Qed.

Lemma construction_outside_development_witness :
  getEnvironment production_configured <> development /\
  (exists c s', constructor production_configured fresh = (Normal c, s')) /\
  getEnvironment production_without_credentials <> development /\
  ~ (exists c s', constructor production_without_credentials fresh = (Normal c, s')).
Proof.
  assert (getEnvironment production_configured <> development) as Hok
    by (vm_compute; discriminate).
  assert (getEnvironment production_without_credentials <> development) as Hko
    by (vm_compute; discriminate).
  split; [ exact Hok | ]. split; [ | split; [ exact Hko | ] ].
  - apply (proj2 (construction_outside_development production_configured fresh Hok)).
    split; [ right; vm_compute; discriminate | ].
    intros _. split; vm_compute; reflexivity.
  - intros Hrun.
    apply (proj1 (construction_outside_development production_without_credentials
                    fresh Hko)) in Hrun.
    destruct Hrun as [_ Hcreds].
    destruct (Hcreds ltac:(vm_compute; reflexivity)) as [Hkey _].
    vm_compute in Hkey. discriminate.
Defined.

(** X7.  The project id of a constructed service is never empty, in any
    environment: it is [NEXT_PUBLIC_FIREBASE_PROJECT_ID] if non-empty, else
    [FIREBASE_PROJECT_ID] if non-empty, else the placeholder
    [demo-project]. *)
Theorem projectId_resolution amb s c s' :
  constructor amb s = (Normal c, s') ->
  projectId (getFirebaseConfig c) <> "" /\
  projectId (getFirebaseConfig c) =
    match taken (env_var amb "NEXT_PUBLIC_FIREBASE_PROJECT_ID") with
    | Some id => id
    | None =>
        match taken (env_var amb "FIREBASE_PROJECT_ID") with
        | Some id => id
        | None => "demo-project"
        end
    end.
Proof.
  intros Hrun.
  destruct (constructor_success _ _ _ _ Hrun) as (_ & Hid & _).
  unfold getFirebaseConfig. rewrite Hid. split; [ apply resolved_projectId_nonempty | ].
  unfold resolved_projectId, or_literal, or_str, taken.
  destruct (truthy_str (env_var amb "NEXT_PUBLIC_FIREBASE_PROJECT_ID")) eqn:Ha;
    [ rewrite Ha | ].
  - destruct (env_var amb "NEXT_PUBLIC_FIREBASE_PROJECT_ID");
      [ reflexivity | discriminate ].
  - reflexivity.
Qed.

Lemma projectId_resolution_witness :
  (exists c s',
     constructor project_override fresh = (Normal c, s') /\
     projectId (getFirebaseConfig c) = "my-app") /\
  (exists c s',
     constructor development_unset fresh = (Normal c, s') /\
     projectId (getFirebaseConfig c) = "demo-project").
Proof.
  split.
  - destruct (constructor project_override fresh) as [[c | e] s'] eqn:Hrun;
      [ | vm_compute in Hrun; discriminate ].
    exists c, s'. split; [ reflexivity | ].
    exact (proj2 (projectId_resolution project_override fresh c s' Hrun)).
  - destruct (constructor development_unset fresh) as [[c | e] s'] eqn:Hrun;
      [ | vm_compute in Hrun; discriminate ].
    exists c, s'. split; [ reflexivity | ].
    exact (proj2 (projectId_resolution development_unset fresh c s' Hrun)).
Defined.

(** X8.  [resetInstance()] followed by [getInstance()] resolves again from
    the ambient signals of that moment: its outcome is the one a fresh
    process would get, whatever service was cached before; on success the
    new service is the cached one, on failure nothing is cached. *)
Theorem resetInstance_rereads_the_ambient amb s :
  fst ((resetInstance ;;; getInstance amb) s) = fst (constructor amb fresh) /\
  (forall c s',
     (resetInstance ;;; getInstance amb) s = (Normal c, s') ->
     instance s' = Some c) /\
  (forall e s',
     (resetInstance ;;; getInstance amb) s = (Abrupt e, s') ->
     instance s' = None).
Proof.
  rewrite resetInstance_then_getInstance.
  pose proof (blind_constructor amb {| instance := None; console := console s |} fresh)
    as Hblind.
  pose proof (keeps_constructor amb {| instance := None; console := console s |})
    as Hkeep.
  destruct (constructor amb {| instance := None; console := console s |})
    as [[c | e] s1]; cbn [commit fst snd] in *.
  - split; [ exact Hblind | ]. split; [ | discriminate ].
    intros c' s' [= <- <-]. reflexivity.
  - split; [ exact Hblind | ]. split; [ discriminate | ].
    intros e' s' [= <- <-]. exact Hkeep.
Qed.

(** ** More on [loadEmulatorConfig] *)

(** What the loader returns and writes, state by state. *)
Lemma loadEmulatorConfig_run amb this_config s :
  loadEmulatorConfig amb this_config s =
    if negb (isNode amb) then
      (Normal (getDefaultEmulatorConfig this_config),
       logged s (console_log
         "[ConfigService] Browser environment detected, using default emulator ports"))
    else
      match firebase_json amb with
      | FileAbsent =>
          (Normal (getDefaultEmulatorConfig this_config),
           logged s (console_warn
             "[ConfigService] ⚠️  firebase.json not found, using defaults"))
      | FileUnreadable =>
          (Normal (getDefaultEmulatorConfig this_config),
           logged s (load_error_line SystemError))
      | FileMalformed =>
          (Normal (getDefaultEmulatorConfig this_config),
           logged s (load_error_line SyntaxError))
      | FileParsed JNull =>
          (Normal (getDefaultEmulatorConfig this_config),
           logged s (load_error_line TypeError))
      | FileParsed content =>
          match section_of content with
          | None =>
              (Normal (getDefaultEmulatorConfig this_config),
               logged s (console_warn
                 "[ConfigService] ⚠️  No emulator config in firebase.json"))
          | Some sec =>
              match emulators_from_file sec this_config with
              | Normal e => (Normal e, s)
              | Abrupt err =>
                  (Normal (getDefaultEmulatorConfig this_config),
                   logged s (load_error_line err))
              end
          end
      end.
Proof.
  unfold loadEmulatorConfig, loadEmulatorConfig_try, section_of, logged, load_error_line.
  destruct (isNode amb); cbn [negb]; [ | reflexivity ].
  unfold try_catch.
  destruct (firebase_json amb) as [ | | | content]; cbn [existsSync read_and_parse negb];
    try reflexivity.
  destruct content; cbn [get_strict]; run; try reflexivity;
    destruct (when_truthy _); run; try reflexivity;
    destruct (emulators_from_file _ _); reflexivity.
Qed.

Lemma emulators_from_file_abrupt sec this_config err :
  emulators_from_file sec this_config = Abrupt err <->
  to_string (service_port sec "auth" 9099) = Abrupt err \/
  (exists a, to_string (service_port sec "auth" 9099) = Normal a) /\
  to_string (service_port sec "functions" 5001) = Abrupt err.
Proof.
  unfold emulators_from_file.
  destruct (to_string (service_port sec "auth" 9099)) as [a | ea]; cbn [cbind].
  - destruct (to_string (service_port sec "functions" 5001)) as [f | ef]; cbn [cbind].
    + split; [ discriminate | ]. intros [H | [_ H]]; discriminate.
    + split; [ intros [= ->]; right; eauto | ]. intros [H | [_ H]]; congruence.
  - split; [ intros [= ->]; auto | ]. intros [H | [[a Ha] _]]; congruence.
Qed.

Lemma or_default_truthy v d : d <> 0%Z -> truthy (Some (or_default v d)) = true.
Proof.
  intros Hd. unfold or_default.
  assert (truthy (Some (JInt d)) = true) as Hdef
    by (cbn; apply Z.eqb_neq in Hd; rewrite Hd; reflexivity).
  destruct v as [p | ]; [ | exact Hdef ].
  destruct (truthy (Some p)) eqn:Hp; [ exact Hp | exact Hdef ].
Qed.

(** X9.  Falling back to the defaults is never silent, and using the file
    is: in every degraded state the loader returns the defaults and writes
    exactly one console line; when it takes the endpoints from the section
    of the file it writes nothing. *)
Theorem fallback_is_never_silent amb this_config s :
  (degraded amb ->
   exists entry,
     loadEmulatorConfig amb this_config s
     = (Normal (getDefaultEmulatorConfig this_config), logged s entry)) /\
  (forall content sec e,
     isNode amb = true ->
     firebase_json amb = FileParsed content ->
     section_of content = Some sec ->
     emulators_from_file sec this_config = Normal e ->
     loadEmulatorConfig amb this_config s = (Normal e, s)).
Proof.
  rewrite loadEmulatorConfig_run. split.
  - intros [Hb | Hf].
    + rewrite Hb. cbn [negb]. eauto.
    + destruct (isNode amb); cbn [negb]; [ | eauto ].
      destruct (firebase_json amb) as [ | | | content]; eauto.
      rewrite Hf. destruct content; eauto.
  - intros content sec e -> -> Hsec Hfile. cbn [negb].
    destruct content; try (rewrite Hsec, Hfile; reflexivity). discriminate.
Qed.

Lemma fallback_is_never_silent_witness :
  (exists entry,
     loadEmulatorConfig development_unset None fresh
     = (Normal (getDefaultEmulatorConfig None), logged fresh entry)) /\
  (exists e,
     emulators_from_file firestore_9000_section None = Normal e /\
     loadEmulatorConfig firestore_port_9000 None fresh = (Normal e, fresh)).
Proof.
  split.
  - apply (proj1 (fallback_is_never_silent development_unset None fresh)).
    right. exact I.
  - destruct (emulators_from_file firestore_9000_section None) as [e | err] eqn:He;
      [ | vm_compute in He; discriminate ].
    exists e. split; [ reflexivity | ].
    assert (section_of firestore_9000 = Some firestore_9000_section) as Hsec
      by (vm_compute; reflexivity).
    exact (proj2 (fallback_is_never_silent firestore_port_9000 None fresh)
             firestore_9000 firestore_9000_section e eq_refl eq_refl Hsec He).
Defined.

(** X10.  The loader takes the section of the file as a whole or not at
    all: when the auth port or the functions port of the section cannot be
    written into its URL, the error is caught, one error line is logged,
    and every service gets its default port, the ports the section gives
    for the other services included. *)
Theorem unprintable_url_port_discards_the_section
    amb this_config s content sec err :
  isNode amb = true ->
  firebase_json amb = FileParsed content ->
  section_of content = Some sec ->
  to_string (service_port sec "auth" 9099) = Abrupt err \/
  to_string (service_port sec "functions" 5001) = Abrupt err ->
  exists e,
    loadEmulatorConfig amb this_config s
    = (Normal e, logged s (load_error_line TypeError)) /\
    e = getDefaultEmulatorConfig this_config /\
    forall svc, port_of e svc = JInt (default_port svc).
Proof.
  intros Hnode Hfile Hsec Herr.
  assert (emulators_from_file sec this_config = Abrupt TypeError) as Hfrom.
  { destruct Herr as [Ha | Hf].
    - pose proof (to_string_abrupt _ _ Ha) as ->.
      apply emulators_from_file_abrupt. auto.
    - pose proof (to_string_abrupt _ _ Hf) as ->.
      destruct (to_string (service_port sec "auth" 9099)) as [a | ea] eqn:Ha.
      + apply emulators_from_file_abrupt. right. eauto.
      + pose proof (to_string_abrupt _ _ Ha) as ->.
        apply emulators_from_file_abrupt. auto. }
  exists (getDefaultEmulatorConfig this_config).
  split; [ | split; [ reflexivity | intros []; reflexivity ] ].
  rewrite loadEmulatorConfig_run, Hnode, Hfile. cbn [negb].
  destruct content; try (rewrite Hsec, Hfrom; reflexivity). discriminate.
Qed.

Lemma unprintable_url_port_discards_the_section_witness :
  file_port auth_port_unprintable_section Firestore = Some (JInt 9000) /\
  exists e,
    loadEmulatorConfig auth_port_unprintable None fresh
    = (Normal e, logged fresh (load_error_line TypeError)) /\
    e = getDefaultEmulatorConfig None /\
    forall svc, port_of e svc = JInt (default_port svc).
Proof.
  split; [ vm_compute; reflexivity | ].
  assert (section_of (JObject {["emulators" := auth_port_unprintable_section]})
          = Some auth_port_unprintable_section) as Hsec by (vm_compute; reflexivity).
  assert (to_string (service_port auth_port_unprintable_section "auth" 9099)
          = Abrupt TypeError) as Hauth by (vm_compute; reflexivity).
  exact (unprintable_url_port_discards_the_section auth_port_unprintable None fresh
           _ _ TypeError eq_refl eq_refl Hsec (or_introl Hauth)).
Defined.

(** X11.  The loader reads nothing of [firebase.json] but the ports of the
    five services: adding or changing any other top-level key, or any
    other key of the [emulators] section, changes neither what it returns
    nor what it writes. *)
Theorem keys_the_loader_does_not_read_are_ignored amb this_config s :
  (forall top k v,
     k <> "emulators" ->
     loadEmulatorConfig (with_file amb (FileParsed (JObject (<[k := v]> top))))
       this_config s
     = loadEmulatorConfig (with_file amb (FileParsed (JObject top))) this_config s) /\
  (forall top members k v,
     (forall svc, k <> service_key svc) ->
     loadEmulatorConfig
       (with_file amb
          (FileParsed (JObject (<["emulators" := JObject (<[k := v]> members)]> top))))
       this_config s
     = loadEmulatorConfig
         (with_file amb (FileParsed (JObject (<["emulators" := JObject members]> top))))
         this_config s).
Proof.
  split.
  - intros top k v Hk. rewrite !loadEmulatorConfig_run.
    cbn [with_file isNode firebase_json].
    assert (section_of (JObject (<[k := v]> top)) = section_of (JObject top)) as ->.
    { unfold section_of, get. rewrite lookup_insert_ne by congruence. reflexivity. }
    reflexivity.
  - intros top members k v Hk. rewrite !loadEmulatorConfig_run.
    cbn [with_file isNode firebase_json].
    unfold section_of, get. rewrite !lookup_insert_eq.
    unfold when_truthy, truthy.
    assert (emulators_from_file (JObject (<[k := v]> members)) this_config
            = emulators_from_file (JObject members) this_config) as ->.
    { unfold emulators_from_file, service_port, get.
      rewrite (lookup_insert_ne members k "auth") by exact (Hk Auth).
      rewrite (lookup_insert_ne members k "firestore") by exact (Hk Firestore).
      rewrite (lookup_insert_ne members k "functions") by exact (Hk Functions).
      rewrite (lookup_insert_ne members k "storage") by exact (Hk Storage).
      rewrite (lookup_insert_ne members k "hosting") by exact (Hk Hosting).
      reflexivity. }
    reflexivity.
Qed.

Lemma keys_the_loader_does_not_read_are_ignored_witness :
  loadEmulatorConfig
    (with_file development_unset
       (FileParsed
          (JObject (<["emulators" :=
             JObject (<["ui" := JObject {["enabled" := JBool true]}]>
                      firestore_9000_members)]> ∅))))
    None fresh
  = loadEmulatorConfig
      (with_file development_unset
         (FileParsed (JObject (<["emulators" := JObject firestore_9000_members]> ∅))))
      None fresh.
Proof.
  apply (proj2 (keys_the_loader_does_not_read_are_ignored development_unset None fresh)).
  intros []; discriminate.
Defined.

(** X12.  Whatever the loader returns is well formed: every host is
    [localhost], every port is truthy (never [0], [null] or empty), the
    auth URL is [http://localhost:<auth port>], and the functions URL is
    [http://localhost:<functions port>/<project>/us-central1] for the
    project id the loader sees. *)
Theorem loaded_endpoints_are_well_formed amb this_config s :
  exists e s',
    loadEmulatorConfig amb this_config s = (Normal e, s') /\
    (forall svc,
       host_of e svc = "localhost" /\ truthy (Some (port_of e svc)) = true) /\
    (exists p,
       to_string (port (auth e)) = Normal p /\
       url (auth e) = "http://localhost:" +:+ p) /\
    (exists p,
       to_string (port (functions e)) = Normal p /\
       baseUrl (functions e)
       = "http://localhost:" +:+ p +:+ "/" +:+ project_or_placeholder this_config
         +:+ "/us-central1").
Proof.
  destruct (loadEmulatorConfig_cases amb this_config s)
    as (e & s' & Hrun & [-> | (content & sec & _ & _ & _ & Hfile)]);
    exists e, s' || exists (getDefaultEmulatorConfig this_config), s';
    (split; [ exact Hrun | ]).
  - split; [ intros []; split; reflexivity | ].
    split; [ exists "9099" | exists "5001" ]; split; reflexivity.
  - split; [ | split ].
    + intros svc. split.
      * unfold emulators_from_file in Hfile.
        destruct (to_string (service_port sec "auth" 9099)); [ | discriminate ].
        destruct (to_string (service_port sec "functions" 5001)); [ | discriminate ].
        cbn [cbind] in Hfile. injection Hfile as <-. destruct svc; reflexivity.
      * rewrite (emulators_from_file_ports _ _ _ Hfile).
        apply or_default_truthy. destruct svc; discriminate.
    + unfold emulators_from_file in Hfile.
      destruct (to_string (service_port sec "auth" 9099)) as [a | ] eqn:Ha;
        [ | discriminate ].
      destruct (to_string (service_port sec "functions" 5001)); [ | discriminate ].
      cbn [cbind] in Hfile. injection Hfile as <-. exists a.
      split; [ exact Ha | reflexivity ].
    + exact (emulators_from_file_baseUrl _ _ _ Hfile).
Qed.

(** X13.  In development the API URL is [NEXT_PUBLIC_API_URL] if
    non-empty, else the functions URL of the loaded endpoints;
    [NEXT_PUBLIC_FIREBASE_FUNCTIONS_URL] is never used there. *)
Theorem development_api_url amb s c s' :
  getEnvironment amb = development ->
  constructor amb s = (Normal c, s') ->
  exists e,
    getEmulatorConfig c = Some e /\
    getApiUrl c = or_literal (env_var amb "NEXT_PUBLIC_API_URL") (baseUrl (functions e)).
Proof.
  intros Henv Hrun.
  destruct (constructor_success _ _ _ _ Hrun) as (_ & _ & _ & _ & Hem & Hurl & _).
  rewrite Henv in Hem. destruct Hem as (e & s1 & Hem & _).
  exists e. split; [ exact Hem | ].
  rewrite Hem in Hurl. unfold apiBaseUrl_by_priority in Hurl.
  unfold getApiUrl, or_literal.
  destruct (taken (env_var amb "NEXT_PUBLIC_API_URL")); congruence.
Qed.

Lemma development_api_url_witness :
  getEnvironment development_with_functions_url = development /\
  exists c s' e,
    constructor development_with_functions_url fresh = (Normal c, s') /\
    getEmulatorConfig c = Some e /\
    getApiUrl c = baseUrl (functions e).
Proof.
  split; [ reflexivity | ].
  destruct (constructor development_with_functions_url fresh) as [[c | err] s'] eqn:Hrun;
    [ | vm_compute in Hrun; discriminate ].
  destruct (development_api_url development_with_functions_url fresh c s' eq_refl Hrun)
    as (e & Hem & Hurl).
  exists c, s', e. auto.
Defined.

(** X14.  A constructed service has local endpoints exactly when its
    environment is development, [isEmulatorMode()] says exactly that, and
    it never holds together with [isProduction()]. *)
Theorem local_endpoints_exactly_in_development amb s c s' :
  constructor amb s = (Normal c, s') ->
  (getEmulatorConfig c <> None <-> environment (config c) = development) /\
  isEmulatorMode c = Environment_eqb (environment (config c)) development /\
  (isEmulatorMode c = true -> isProduction c = false).
Proof.
  intros Hrun.
  destruct (constructor_success _ _ _ _ Hrun) as (Henv & _ & _ & _ & Hem & _).
  unfold getEmulatorConfig, isEmulatorMode, isProduction. rewrite Henv.
  destruct (getEnvironment amb).
  - destruct Hem as (e & s1 & -> & _). repeat split; auto; discriminate.
  - rewrite Hem. repeat split; auto; intros; congruence.
  - rewrite Hem. repeat split; auto; intros; congruence.
Qed.

Lemma local_endpoints_exactly_in_development_witness :
  constructor production_configured fresh
  = (Normal (production_settings (Some "key")),
     snd (constructor production_configured fresh)) /\
  isEmulatorMode (production_settings (Some "key")) = false /\
  ~ getEmulatorConfig (production_settings (Some "key")) <> None.
Proof.
  assert (constructor production_configured fresh
          = (Normal (production_settings (Some "key")),
             snd (constructor production_configured fresh))) as Hrun
    by (vm_compute; reflexivity).
  destruct (local_endpoints_exactly_in_development production_configured fresh _ _ Hrun)
    as (Hiff & Hmode & _).
  split; [ exact Hrun | ]. split; [ exact Hmode | ].
  intros Hsome. apply Hiff in Hsome. discriminate.
Defined.

(** X15.  In production with an API URL source present and [apiKey] or
    [authDomain] missing, construction throws the validation error: its
    details are the messages of the missing credentials, joined by a line
    break, apiKey first; nothing is logged after the first line and the
    singleton stays unset. *)
Theorem production_validation_failure amb s :
  getEnvironment amb = production ->
  taken (env_var amb "NEXT_PUBLIC_API_URL") <> None \/
  taken (env_var amb "NEXT_PUBLIC_FIREBASE_FUNCTIONS_URL") <> None ->
  truthy_str (env_var amb "NEXT_PUBLIC_FIREBASE_API_KEY") = false \/
  truthy_str (env_var amb "NEXT_PUBLIC_FIREBASE_AUTH_DOMAIN") = false ->
  constructor amb s =
    (Abrupt (ConfigurationError
       "Configuration validation failed"
       (Some (String.concat newline
          ((if truthy_str (env_var amb "NEXT_PUBLIC_FIREBASE_API_KEY") then []
            else ["Firebase apiKey required for production"]) ++
           (if truthy_str (env_var amb "NEXT_PUBLIC_FIREBASE_AUTH_DOMAIN") then []
            else ["Firebase authDomain required for production"]))%list))
       (Some "Check your .env.local file and ensure Firebase emulators are running")),
     initial_log s).
Proof.
  intros Henv Hsrc Hcreds.
  destruct (loadFirebaseConfig_run amb None (initial_log s))
    as (fb & s1 & Hfb & Hid & Hkey & Hdom & Hem).
  rewrite Henv in Hem. destruct Hem as [Hnone ->].
  rewrite (constructor_unfold _ _ _ _ Hfb), getApiBaseUrl_run.
  cbn [config firebase]. rewrite Hnone, Henv.
  destruct (apiBaseUrl_by_priority _ None _) as [u | ] eqn:Hu.
  - cbn zeta. unfold validate. cbn [config environment firebase Environment_eqb].
    rewrite Hid, Hkey, Hdom.
    pose proof (resolved_projectId_nonempty amb) as Hne.
    apply String.eqb_neq in Hne. rewrite Hne.
    destruct (truthy_str (env_var amb "NEXT_PUBLIC_FIREBASE_API_KEY"));
      destruct (truthy_str (env_var amb "NEXT_PUBLIC_FIREBASE_AUTH_DOMAIN"));
      try reflexivity.
    destruct Hcreds; discriminate.
  - exfalso. unfold apiBaseUrl_by_priority in Hu.
    destruct (taken (env_var amb "NEXT_PUBLIC_API_URL")); [ discriminate | ].
    destruct Hsrc; congruence.
Qed.

Lemma production_validation_failure_witness :
  getEnvironment production_without_credentials = production /\
  constructor production_without_credentials fresh
  = (Abrupt missing_credentials_error, initial_log fresh).
Proof.
  split; [ reflexivity | ].
  refine (eq_trans
            (production_validation_failure production_without_credentials fresh
               eq_refl (or_introl _) (or_introl _)) _).
  - vm_compute. discriminate.
  - vm_compute. reflexivity.
  - vm_compute. reflexivity.
Defined.

(** X16.  The service never raises [EmulatorNotRunningError]: it does not
    probe the emulators, and [getInstance()] completes or throws one of
    its two configuration errors or a [TypeError]. *)
Theorem getInstance_never_raises_EmulatorNotRunningError amb s :
  fst (getInstance amb s) <> Abrupt EmulatorNotRunningError /\
  (forall err,
     fst (getInstance amb s) = Abrupt err ->
     err = api_url_error \/
     (exists details resolution,
        err = ConfigurationError "Configuration validation failed" details resolution) \/
     err = TypeError).
Proof.
  assert (forall err, fst (getInstance amb s) = Abrupt err ->
            err = api_url_error \/
            (exists details resolution,
               err = ConfigurationError "Configuration validation failed"
                       details resolution) \/
            err = TypeError) as Hkinds.
  { intros err Hrun.
    destruct (instance s) as [c | ] eqn:Hs.
    - rewrite (getInstance_cached _ _ _ Hs) in Hrun. discriminate.
    - rewrite (getInstance_empty _ _ Hs) in Hrun. unfold commit in Hrun.
      destruct (constructor amb s) as [[c | e] s1] eqn:Hc; [ discriminate | ].
      injection Hrun as <-. exact (constructor_aborts _ _ _ _ Hc). }
  split; [ | exact Hkinds ].
  intros Hrun. destruct (Hkinds _ Hrun) as [H | [(d & r & H) | H]]; discriminate.
Qed.

(** ** What reaches the console *)

Lemma loadEmulatorConfig_reads amb1 amb2 this_config s :
  isNode amb1 = isNode amb2 ->
  firebase_json amb1 = firebase_json amb2 ->
  loadEmulatorConfig amb1 this_config s = loadEmulatorConfig amb2 this_config s.
Proof. intros Hn Hf. rewrite !loadEmulatorConfig_run, Hn, Hf. reflexivity. Qed.

Lemma validate_reads this1 this2 :
  environment (config this1) = environment (config this2) ->
  projectId (firebase (config this1)) = projectId (firebase (config this2)) ->
  emulators (firebase (config this1)) = emulators (firebase (config this2)) ->
  truthy_str (apiKey (firebase (config this1)))
  = truthy_str (apiKey (firebase (config this2))) ->
  truthy_str (authDomain (firebase (config this1)))
  = truthy_str (authDomain (firebase (config this2))) ->
  validate this1 = validate this2.
Proof.
  intros He Hp Hem Hk Hd. unfold validate. rewrite He, Hp, Hem, Hk, Hd. reflexivity.
Qed.

Lemma logConfiguration_reads this1 this2 s :
  environment (config this1) = environment (config this2) ->
  projectId (firebase (config this1)) = projectId (firebase (config this2)) ->
  emulators (firebase (config this1)) = emulators (firebase (config this2)) ->
  api_baseUrl (config this1) = api_baseUrl (config this2) ->
  logConfiguration this1 s = logConfiguration this2 s.
Proof.
  intros He Hp Hem Hu. unfold logConfiguration, isEmulatorMode.
  rewrite He, Hp, Hem, Hu. reflexivity.
Qed.

(** X24.  The values of the credentials never reach the console or an
    error: two runs of the constructor whose ambients differ only in the
    values of the five credential variables (each empty or unset in both
    or in neither) leave the same console and instance field, and one
    throws an error exactly when the other throws the same error. *)
Theorem credential_values_are_never_logged amb1 amb2 s :
  same_but_credentials amb1 amb2 ->
  snd (constructor amb1 s) = snd (constructor amb2 s) /\
  (forall err,
     fst (constructor amb1 s) = Abrupt err <-> fst (constructor amb2 s) = Abrupt err).
Proof.
  intros (Hnode & Hfile & Hsame & Htruthy).
  assert (forall k, In k [ "NEXT_PUBLIC_APP_ENV"; "NODE_ENV";
                           "NEXT_PUBLIC_FIREBASE_PROJECT_ID"; "FIREBASE_PROJECT_ID";
                           "NEXT_PUBLIC_API_URL"; "NEXT_PUBLIC_FIREBASE_FUNCTIONS_URL" ] ->
            env_var amb1 k = env_var amb2 k) as Hread.
  { intros k Hk. apply Hsame. intros Hc.
    cbn in Hk, Hc.
    repeat match goal with
           | H : _ \/ _ |- _ => destruct H
           | H : False |- _ => destruct H
           end; subst; discriminate. }
  assert (getEnvironment amb1 = getEnvironment amb2) as Henv.
  { unfold getEnvironment. rewrite !(Hread _) by (cbn; auto 10). reflexivity. }
  assert (resolved_projectId amb1 = resolved_projectId amb2) as Hid.
  { unfold resolved_projectId. rewrite !(Hread _) by (cbn; auto 10). reflexivity. }
  destruct (loadFirebaseConfig_run amb1 None (initial_log s))
    as (fb1 & s1 & Hfb1 & Hid1 & Hkey1 & Hdom1 & Hem1).
  destruct (loadFirebaseConfig_run amb2 None (initial_log s))
    as (fb2 & s2 & Hfb2 & Hid2 & Hkey2 & Hdom2 & Hem2).
  assert (emulators fb1 = emulators fb2 /\ s1 = s2) as [Hem ->].
  { rewrite <- Henv in Hem2.
    rewrite (loadEmulatorConfig_reads amb1 amb2 _ _ Hnode Hfile) in Hem1.
    destruct (getEnvironment amb1).
    - destruct Hem1 as (e1 & -> & Hl1), Hem2 as (e2 & -> & Hl2).
      rewrite Hl1 in Hl2. injection Hl2 as -> ->. auto.
    - destruct Hem1 as [-> ->], Hem2 as [-> ->]. auto.
    - destruct Hem1 as [-> ->], Hem2 as [-> ->]. auto. }
  rewrite (constructor_unfold _ _ _ _ Hfb1), (constructor_unfold _ _ _ _ Hfb2).
  rewrite !getApiBaseUrl_run. cbn [config firebase].
  rewrite <- Henv, <- Hem, !(Hread _) by (cbn; auto 10).
  destruct (apiBaseUrl_by_priority _ _ _) as [u | ]; [ | split; [ reflexivity | tauto ] ].
  cbn zeta.
  rewrite (validate_reads
             {| config := {| environment := getEnvironment amb1; firebase := fb1;
                             api_baseUrl := u |} |}
             {| config := {| environment := getEnvironment amb1; firebase := fb2;
                             api_baseUrl := u |} |});
    cbn [config environment firebase]; try congruence.
  2: { rewrite Hkey1, Hkey2. apply Htruthy. cbn. auto. }
  2: { rewrite Hdom1, Hdom2. apply Htruthy. cbn. auto. }
  destruct (valid (validate _)); [ | split; [ reflexivity | tauto ] ].
  rewrite (logConfiguration_reads
             {| config := {| environment := getEnvironment amb1; firebase := fb1;
                             api_baseUrl := u |} |}
             {| config := {| environment := getEnvironment amb1; firebase := fb2;
                             api_baseUrl := u |} |});
    cbn [config environment firebase api_baseUrl]; try congruence.
  destruct (logConfiguration _ _) as [[[] | e] s3]; cbn [fst snd];
    (split; [ reflexivity | ]); intros err; split; intros H; try discriminate; exact H.
Qed.

Lemma credential_values_are_never_logged_witness :
  same_but_credentials
    production_configured
    (with_env production_configured "NEXT_PUBLIC_FIREBASE_API_KEY" "another-key") /\
  snd (constructor production_configured fresh)
  = snd (constructor
           (with_env production_configured "NEXT_PUBLIC_FIREBASE_API_KEY" "another-key")
           fresh).
Proof.
  assert (same_but_credentials
            production_configured
            (with_env production_configured "NEXT_PUBLIC_FIREBASE_API_KEY" "another-key"))
    as Hsame.
  { split; [ reflexivity | ]. split; [ reflexivity | ]. split.
    - intros name Hname. unfold env_var, with_env. cbn [process_env].
      rewrite lookup_insert_ne; [ reflexivity | ].
      intros <-. apply Hname. cbn. auto.
    - intros name Hname. cbn in Hname.
      repeat match goal with
             | H : _ \/ _ |- _ => destruct H
             | H : False |- _ => destruct H
             end; subst; vm_compute; reflexivity. }
  split; [ exact Hsame | ].
  exact (proj1 (credential_values_are_never_logged _ _ fresh Hsame)).
Defined.

(** ** The scripts *)

Lemma requested_app a b : requested (a ++ b) = (requested a ++ requested b)%list.
Proof. apply omap_app. Qed.

Lemma slept_app a b : slept (a ++ b) = (slept a ++ slept b)%list.
Proof. apply omap_app. Qed.

Section HealthFacts.
Import Script E2eHealth.
Variable respond : string -> nat -> CheckResult.
Variable seconds_toFixed2 : Z -> string.

Lemma check_each_run checks : forall results hasFailures st,
  exists results' st',
    check_each respond seconds_toFixed2 checks results hasFailures st
    = (results', hasFailures || required_down respond checks (requests st), st') /\
    requests st' = (requests st + length checks)%nat /\
    requested (trace st') = (requested (trace st) ++ map url checks)%list.
Proof.
  induction checks as [ | c rest IH]; intros results hasFailures st.
  - exists results, st. cbn [check_each required_down length map].
    rewrite orb_false_r, Nat.add_0_r, app_nil_r. auto.
  - cbn [check_each checkService required_down].
    cbn [emit requests].
    destruct (respond (url c) (requests st)) as [t code | err] eqn:Hr; cbn [healthy negb].
    + edestruct IH as (r' & st' & -> & Hn & Htr).
      exists r', st'. rewrite andb_false_r. cbn [orb]. split; [ reflexivity | ].
      cbn [emit send requests trace length] in *. split; [ lia | ].
      rewrite Htr. rewrite !requested_app. cbn.
      rewrite !app_nil_r, <- !app_assoc. auto.
    + destruct (required c).
      * edestruct IH as (r' & st' & -> & Hn & Htr).
        exists r', st'. cbn [andb orb]. rewrite orb_true_r. split; [ reflexivity | ].
        cbn [emit send requests trace length] in *. split; [ lia | ].
        rewrite Htr. rewrite !requested_app. cbn.
        rewrite !app_nil_r, <- !app_assoc. auto.
      * edestruct IH as (r' & st' & -> & Hn & Htr).
        exists r', st'. cbn [andb orb]. split; [ reflexivity | ].
        cbn [emit send requests trace length] in *. split; [ lia | ].
        rewrite Htr. rewrite !requested_app. cbn.
        rewrite !app_nil_r, <- !app_assoc. auto.
Qed.

Lemma list_failures_requested results : forall st,
  requested (trace (list_failures results st)) = requested (trace st).
Proof.
  induction results as [ | o rest IH]; intros st; cbn [list_failures]; [ reflexivity | ].
  destruct (negb (passed o) && required (check o)); rewrite IH; [ | reflexivity ].
  cbn [emit trace]. rewrite requested_app. cbn. apply app_nil_r.
Qed.

Lemma list_urls_requested results : forall st,
  requested (trace (list_urls results st)) = requested (trace st).
Proof.
  induction results as [ | o rest IH]; intros st; cbn [list_urls]; [ reflexivity | ].
  destruct (healthy (result o)); rewrite IH; [ | reflexivity ].
  cbn [emit trace]. rewrite requested_app. cbn. apply app_nil_r.
Qed.

Lemma main_over_run checks st :
  fst (main_over respond seconds_toFixed2 checks st)
  = (if required_down respond checks (requests st) then 1 else 0)%Z /\
  requested (trace (snd (main_over respond seconds_toFixed2 checks st)))
  = (requested (trace st) ++ map url checks)%list.
Proof.
  unfold main_over.
  set (st0 := emit _ (emit _ (emit _ (emit _ st)))).
  destruct (check_each_run checks [] false st0) as (r' & st' & -> & _ & Htr).
  cbn [orb]. change (requests st0) with (requests st).
  assert (requested (trace st0) = requested (trace st)) as Hst0.
  { unfold st0. cbn [emit trace]. rewrite !requested_app. cbn. rewrite !app_nil_r.
    reflexivity. }
  destruct (required_down respond checks (requests st)); cbn [fst snd];
    (split; [ reflexivity | ]);
    cbn [emit trace]; rewrite !requested_app;
    rewrite ?list_failures_requested, ?list_urls_requested;
    cbn [emit trace]; rewrite !requested_app, Htr, Hst0; cbn; rewrite !app_nil_r;
    reflexivity.
Qed.

End HealthFacts.

(** X17.  The health check exits with 0 or 1, and with 0 exactly when
    the four required services (the Next.js server on 3004, the auth,
    firestore and functions emulators on 9099, 8081 and 5002) respond;
    whether storage and hosting respond does not matter. *)
Theorem health_exit_code respond seconds_toFixed2 st :
  let n := Script.requests st in
  (fst (E2eHealth.main respond seconds_toFixed2 st) = 0%Z \/
   fst (E2eHealth.main respond seconds_toFixed2 st) = 1%Z) /\
  (fst (E2eHealth.main respond seconds_toFixed2 st) = 0%Z <->
   E2eHealth.healthy (respond "http://localhost:3004" n) = true /\
   E2eHealth.healthy (respond "http://localhost:9099" (1 + n)) = true /\
   E2eHealth.healthy (respond "http://localhost:8081" (2 + n)) = true /\
   E2eHealth.healthy (respond "http://localhost:5002" (3 + n)) = true).
Proof.
  intros n. unfold E2eHealth.main.
  destruct (main_over_run respond seconds_toFixed2 E2eHealth.HEALTH_CHECKS st) as [-> _].
  cbn [required_down E2eHealth.HEALTH_CHECKS E2eHealth.required E2eHealth.url andb orb].
  fold n. change (S n) with (1 + n)%nat. change (S (1 + n)) with (2 + n)%nat.
  change (S (2 + n)) with (3 + n)%nat.
  destruct (E2eHealth.healthy (respond "http://localhost:3004" n));
    destruct (E2eHealth.healthy (respond "http://localhost:9099" (1 + n)));
    destruct (E2eHealth.healthy (respond "http://localhost:8081" (2 + n)));
    destruct (E2eHealth.healthy (respond "http://localhost:5002" (3 + n)));
    cbn; split; auto; split; intros H; try discriminate; try tauto;
    destruct H as (? & ? & ? & ?); discriminate.
Qed.

(** X18.  The health check never stops early: whatever the answers, it
    sends one request to each check's URL, in the order of the list, and
    no other request. *)
Theorem health_probes_every_service respond seconds_toFixed2 checks st :
  requested (Script.trace (snd (E2eHealth.main_over respond seconds_toFixed2 checks st)))
  = (requested (Script.trace st) ++ map E2eHealth.url checks)%list /\
  requested (Script.trace (snd (E2eHealth.main respond seconds_toFixed2 Script.start)))
  = [ "http://localhost:3004"; "http://localhost:9099"; "http://localhost:8081";
      "http://localhost:5002"; "http://localhost:9199"; "http://localhost:5000" ].
Proof.
  split.
  - apply main_over_run.
  - unfold E2eHealth.main.
    rewrite (proj2 (main_over_run respond seconds_toFixed2 E2eHealth.HEALTH_CHECKS
                      Script.start)).
    reflexivity.
Qed.

Section WaitFacts.
Import Script E2eStart.
Variable respond : string -> nat -> bool.

Lemma attempts_run name url maxAttempts interval remaining : forall st,
  exists n st',
    attempts respond name url maxAttempts interval remaining st
    = (negb (Nat.eqb n 0) && respond url (requests st + (n - 1)), st') /\
    n <= remaining /\
    requests st' = (requests st + n)%nat /\
    requested (trace st') = (requested (trace st) ++ replicate n url)%list /\
    (forall j, j + 1 < n -> respond url (requests st + j) = false) /\
    ((1 <= n /\ respond url (requests st + (n - 1)) = true /\
      slept (trace st') = (slept (trace st) ++ replicate (n - 1) interval)%list) \/
     (n = remaining /\
      (forall j, j < n -> respond url (requests st + j) = false) /\
      slept (trace st') = (slept (trace st) ++ replicate n interval)%list)).
Proof.
  induction remaining as [ | r IH]; intros st.
  - exists 0, (emit (error ("❌ " +:+ name +:+ " failed to start after "
                    +:+ number_to_string (Z.of_nat maxAttempts) +:+ " attempts")) st).
    cbn [attempts Nat.eqb negb andb emit requests trace replicate].
    rewrite requested_app, slept_app. cbn. rewrite !app_nil_r, Nat.add_0_r.
    split; [ reflexivity | ]. split; [ lia | ]. split; [ reflexivity | ].
    split; [ reflexivity | ]. split; [ intros; lia | ].
    right. split; [ reflexivity | ]. split; [ intros; lia | reflexivity ].
  - cbn [attempts isServiceRunning].
    destruct (respond url (requests st)) eqn:Hfirst.
    + exists 1, (emit (log ("✅ " +:+ name +:+ " is ready!")) (send url st)).
      cbn [Nat.eqb negb andb emit send requests trace replicate Nat.sub].
      rewrite !requested_app, !slept_app. cbn. rewrite !app_nil_r, Nat.add_0_r, Hfirst.
      split; [ reflexivity | ]. split; [ lia | ]. split; [ lia | ].
      split; [ reflexivity | ]. split; [ intros; lia | ]. left. auto.
    + edestruct IH as (n & st' & -> & Hle & Hreq & Htr & Hbefore & Hend).
      exists (S n), st'.
      cbn [emit send requests trace] in *.
      rewrite !requested_app, !slept_app in *. cbn in Htr, Hend.
      rewrite !app_nil_r in *.
      replace (requests st + (S n - 1))%nat with (requests st + n)%nat by lia.
      assert (forall j, j + 1 < S n -> respond url (requests st + j) = false) as Hb.
      { intros [ | j] Hj; [ rewrite Nat.add_0_r; exact Hfirst | ].
        replace (requests st + S j)%nat with (S (requests st) + j)%nat by lia.
        apply Hbefore. lia. }
      split.
      { destruct n as [ | m].
        - cbn. rewrite Nat.add_0_r, Hfirst. reflexivity.
        - cbn [Nat.eqb negb andb].
          replace (S (requests st) + (S m - 1))%nat with (requests st + S m)%nat by lia.
          reflexivity. }
      split; [ lia | ]. split; [ lia | ].
      split; [ rewrite Htr, <- app_assoc; reflexivity | ].
      split; [ exact Hb | ].
      destruct Hend as [(H1 & Htrue & Hsl) | (Hn & Hall & Hsl)].
      * left. split; [ lia | ]. split.
        -- replace (requests st + n)%nat with (S (requests st) + (n - 1))%nat by lia.
           exact Htrue.
        -- rewrite Hsl, <- app_assoc. replace (S n - 1) with (S (n - 1)) by lia.
           reflexivity.
      * right. split; [ lia | ]. split.
        -- intros [ | j] Hj; [ rewrite Nat.add_0_r; exact Hfirst | ].
           replace (requests st + S j)%nat with (S (requests st) + j)%nat by lia.
           apply Hall. lia.
        -- rewrite Hsl, <- app_assoc. reflexivity.
Qed.

End WaitFacts.

(** X19.  [waitForService] answers true exactly when one of its first
    [maxAttempts] requests gets a response; with no attempt allowed it
    answers false. *)
Theorem waitForService_result respond name url maxAttempts interval st :
  fst (E2eStart.waitForService respond name url maxAttempts interval st) = true <->
  exists k, k < maxAttempts /\ respond url (Script.requests st + k) = true.
Proof.
  unfold E2eStart.waitForService.
  edestruct (attempts_run respond name url maxAttempts interval maxAttempts)
    as (n & st' & -> & Hle & _ & _ & Hbefore & Hend).
  cbn [fst Script.emit Script.requests] in *.
  split.
  - intros H. apply andb_true_iff in H. destruct H as [Hn Htrue].
    exists (n - 1). split; [ | exact Htrue ].
    destruct n; [ discriminate | lia ].
  - intros (k & Hk & Htrue).
    destruct Hend as [(H1 & Hlast & _) | (-> & Hall & _)].
    + rewrite Hlast. destruct n; [ lia | reflexivity ].
    + rewrite Hall in Htrue by exact Hk. discriminate.
Qed.

(** X20.  [waitForService] stops at the first response: it sends at most
    [maxAttempts] requests, all to the URL it was given, none of them
    answered before the last; it pauses [interval] after each unanswered
    request and not after the answered one; when it gives up it has sent
    exactly [maxAttempts] requests and paused [maxAttempts] times. *)
Theorem waitForService_effort respond name url maxAttempts interval st :
  exists n st' ok,
    E2eStart.waitForService respond name url maxAttempts interval st = (ok, st') /\
    n <= maxAttempts /\
    Script.requests st' = (Script.requests st + n)%nat /\
    requested (Script.trace st') = (requested (Script.trace st) ++ replicate n url)%list /\
    (forall j, j + 1 < n -> respond url (Script.requests st + j) = false) /\
    (ok = true ->
     slept (Script.trace st') = (slept (Script.trace st) ++ replicate (n - 1) interval)%list) /\
    (ok = false ->
     n = maxAttempts /\
     slept (Script.trace st')
     = (slept (Script.trace st) ++ replicate maxAttempts interval)%list).
Proof.
  unfold E2eStart.waitForService.
  edestruct (attempts_run respond name url maxAttempts interval maxAttempts)
    as (n & st' & Hrun & Hle & Hreq & Htr & Hbefore & Hend).
  exists n, st'. eexists. split; [ exact Hrun | ].
  cbn [Script.emit Script.requests Script.trace] in *.
  rewrite requested_app, slept_app in *. cbn in Htr, Hend. rewrite !app_nil_r in *.
  split; [ exact Hle | ]. split; [ exact Hreq | ]. split; [ exact Htr | ].
  split; [ exact Hbefore | ].
  destruct Hend as [(H1 & Hlast & Hsl) | (-> & Hall & Hsl)].
  - rewrite Hlast. destruct n; [ lia | ]. cbn [Nat.eqb negb andb].
    split; [ intros _; exact Hsl | discriminate ].
  - destruct maxAttempts as [ | m].
    + cbn [Nat.eqb negb andb]. split; [ discriminate | auto ].
    + rewrite (Hall (S m - 1)) by lia. rewrite andb_false_r.
      split; [ discriminate | auto ].
Qed.

(** ** [setup.js] *)

Lemma string_of_uint_digits d : all_digits (NilEmpty.string_of_uint d) = true.
Proof. induction d; cbn [NilEmpty.string_of_uint all_digits]; try rewrite IHd; reflexivity. Qed.

Lemma digits_of_uint d : forall acc,
  Setup.digits 10 (NilEmpty.string_of_uint d) true acc
  = Some (N.of_nat (Nat.of_uint_acc d (N.to_nat acc))).
Proof.
  induction d; intros acc; cbn [NilEmpty.string_of_uint Setup.digits Nat.of_uint_acc];
    try (rewrite N2Nat.id; reflexivity);
    change (Setup.digit_value 10 _) with (Some 0%N) || change (Setup.digit_value 10 _) with (Some 1%N)
    || change (Setup.digit_value 10 _) with (Some 2%N) || change (Setup.digit_value 10 _) with (Some 3%N)
    || change (Setup.digit_value 10 _) with (Some 4%N) || change (Setup.digit_value 10 _) with (Some 5%N)
    || change (Setup.digit_value 10 _) with (Some 6%N) || change (Setup.digit_value 10 _) with (Some 7%N)
    || change (Setup.digit_value 10 _) with (Some 8%N) || change (Setup.digit_value 10 _) with (Some 9%N);
    cbv iota beta; rewrite IHd; do 3 f_equal; rewrite Nat.tail_mul_spec; lia.
Qed.

Lemma before_dot_digits text rest :
  all_digits text = true -> Setup.before_dot (text +:+ String "." rest) = text.
Proof.
  induction text as [ | c text IH]; intros H; cbn [all_digits] in H.
  - reflexivity.
  - apply andb_true_iff in H. destruct H as [Hc Ht].
    change (String c text +:+ String "." rest)
      with (String c (text +:+ String "." rest)).
    cbn [Setup.before_dot].
    destruct (Ascii.eqb_spec c ".") as [-> | _]; [ discriminate | ].
    rewrite (IH Ht). reflexivity.
Qed.

Lemma before_dot_no_dot text :
  all_digits text = true -> Setup.before_dot text = text.
Proof.
  induction text as [ | c text IH]; intros H; cbn [Setup.before_dot all_digits] in *.
  - reflexivity.
  - apply andb_true_iff in H. destruct H as [Hc Ht].
    destruct (Ascii.eqb_spec c ".") as [-> | _]; [ discriminate | ].
    rewrite (IH Ht). reflexivity.
Qed.

Lemma numeral_digits n : all_digits (numeral n) = true.
Proof.
  unfold numeral, NilZero.string_of_uint.
  destruct (Nat.to_uint n); try reflexivity; apply string_of_uint_digits.
Qed.

Lemma parseInt_uint d :
  d <> Decimal.Nil ->
  Setup.parseInt (NilEmpty.string_of_uint d) = Some (Z.of_nat (Nat.of_uint d)).
Proof.
  intros Hd.
  assert (Setup.unsigned (NilEmpty.string_of_uint d)
          = Setup.digits 10 (NilEmpty.string_of_uint d) true 0) as Hu.
  { destruct d as [ | d' | d' | d' | d' | d' | d' | d' | d' | d' | d' ];
      try congruence; try reflexivity.
    destruct d'; reflexivity. }
  assert (Setup.parseInt (NilEmpty.string_of_uint d)
          = option_map Z.of_N (Setup.unsigned (NilEmpty.string_of_uint d))) as Hp.
  { destruct d; try congruence; reflexivity. }
  rewrite Hp, Hu, digits_of_uint. cbn [option_map N.to_nat].
  unfold Nat.of_uint. rewrite nat_N_Z. reflexivity.
Qed.

Lemma parseInt_numeral n : Setup.parseInt (numeral n) = Some (Z.of_nat n).
Proof.
  unfold numeral, NilZero.string_of_uint.
  pose proof (DecimalNat.Unsigned.of_to n) as Hn.
  destruct (Nat.to_uint n) eqn:Hu;
    [ cbn in Hn; subst n; reflexivity | rewrite <- Hn; apply parseInt_uint; discriminate .. ].
Qed.

(** X21.  [checkNodeVersion] accepts exactly the versions from 18 on: for
    [process.version] of the form [v<major>.<rest>] or [v<major>] it
    returns true when [major] is at least 18 and false otherwise. *)
Theorem checkNodeVersion_accepts_18_and_later major rest out :
  fst (Setup.checkNodeVersion ("v" +:+ numeral major +:+ "." +:+ rest) out)
  = (18 <=? major)%nat /\
  fst (Setup.checkNodeVersion ("v" +:+ numeral major) out) = (18 <=? major)%nat.
Proof.
  unfold Setup.checkNodeVersion.
  change ("v" +:+ numeral major +:+ "." +:+ rest)
    with (String "v" (numeral major +:+ String "." rest)).
  change ("v" +:+ numeral major) with (String "v" (numeral major)).
  cbn [Setup.slice1].
  rewrite before_dot_digits, before_dot_no_dot by apply numeral_digits.
  rewrite parseInt_numeral.
  assert ((18 <=? Z.of_nat major)%Z = (18 <=? major)%nat) as ->.
  { destruct (Nat.leb_spec 18 major); [ apply Z.leb_le | apply Z.leb_gt ]; lia. }
  destruct (18 <=? major)%nat; split; reflexivity.
Qed.

Section EnvFacts.
Variable envExample envLocal : string.


(** X23.  [setupEnvironmentFile] returns true exactly when
    [.env.local.example] exists and [.env.local] exists already or the copy
    succeeds (it fails when the example is missing even if [.env.local]
    exists); after a true result [.env.local] exists, and when it was
    created its content is the example's. *)
Theorem setupEnvironmentFile_result copy_error (fs : gmap string string) out :
  let r := Setup.setupEnvironmentFile envExample envLocal copy_error fs out in
  let ok := fst (fst r) in
  let fs' := snd (fst r) in
  (ok = true <->
   is_Some (fs !! envExample) /\ (is_Some (fs !! envLocal) \/ copy_error = None)) /\
  (ok = true -> is_Some (fs' !! envLocal)) /\
  (ok = true -> fs !! envLocal = None -> fs' !! envLocal = fs !! envExample).
Proof.
  unfold Setup.setupEnvironmentFile.
  destruct (fs !! envExample) as [example | ] eqn:Hex.
  - destruct (fs !! envLocal) as [local | ] eqn:Hlo.
    + cbn [fst snd]. rewrite Hlo. split; [ | split ].
      * split; [ eauto | reflexivity ].
      * eauto.
      * discriminate.
    + destruct copy_error as [msg | ]; cbn [fst snd].
      * split; [ | split ]; try discriminate.
        split; [ discriminate | ].
        intros [_ [[x Hx] | Hx]]; discriminate.
      * rewrite lookup_insert_eq. split; [ | split ]; eauto.
        split; eauto.
  - cbn [fst snd]. split; [ | split ]; try discriminate.
    split; [ discriminate | ]. intros [[x Hx] _]. discriminate.
Qed.
End EnvFacts.